(** * Generate_daily_video.py: a shallow embedding and its properties

    The script renders a short vertical "fight" clip with moviepy and, when
    three secrets are present in the environment, uploads it.  This file
    embeds the script:

    - [Py]: the Python primitives the script relies on (exceptions, ints and
      floats, [int()], [//], [%], [range], a numpy array of pixels);
    - [Doubles]: bounds on the products and sums of doubles;
    - [Speedlines]: the frame generator inside [speedlines_clip];
    - [Rand]: [random.Random], [randint], [random.sample] and [shake_pos];
    - [MoviePy]: the clips of moviepy, as descriptions of the calls made;
    - [Audio]: the synthesizers [tone], [whoosh], [thump];
    - [Effects]: the events of a run (lines printed, calls that leave the
      script), the world that answers them, and the monad that threads them;
    - [Video]: [build_video];
    - [Upload]: [maybe_upload_to_youtube] and [main];
    - [Frames], [Shake], [Levels], [Runs]: further properties of the frames,
      of [shake_pos], of the synthesizers, and of the runs of the upload
      step and of [main].

    Conventions.  A Python [int] is a [Z].  A Python [float] is an IEEE 754
    double, a [spec_float] of the Standard Library with precision 53 and
    maximal exponent 1024: products and sums round to nearest, ties to even;
    a mixed operation converts the int first, which raises [OverflowError]
    for an int beyond the doubles; [int()] truncates, and raises for an
    infinity and for a NaN.  A decimal literal that only describes a clip (a
    duration, a start time, an opacity) is kept as the rational number it is
    written as.  Audio samples are real numbers.  A call that can raise
    returns an [outcome]. *)

From Stdlib Require Import ZArith QArith Reals Lia Lra Ascii.
From Stdlib Require Import Floats.SpecFloat.
From stdpp Require Import base list gmap strings.

#[local] Open Scope Z_scope.

(* ===================================================================== *)
(** ** Python primitives *)
(* ===================================================================== *)

Module Py.

(** The exception classes that occur in the script or in the calls it makes.
    [KeyboardInterrupt] and [SystemExit] derive from [BaseException] only;
    every other class derives from [Exception].  [LibraryError] stands for a
    class defined by a third-party package (for instance
    [googleapiclient.errors.HttpError]); such classes derive from
    [Exception]. *)
Inductive exn_class : Type :=
  | ValueError
  | ZeroDivisionError
  | IndexError
  | KeyError
  | TypeError
  | ImportError
  | OSError
  | AttributeError
  | OverflowError
  | KeyboardInterrupt
  | SystemExit
  | LibraryError (name : string).

Record exn : Type := Exn { exn_cls : exn_class; exn_str : string }.

(** [isinstance(e, Exception)] *)
Definition is_Exception (e : exn) : bool :=
  match exn_cls e with
  | KeyboardInterrupt | SystemExit => false
  | _ => true
  end.

Inductive outcome (A : Type) : Type :=
  | Ret (a : A)
  | Raise (e : exn).
Arguments Ret {A} a.
Arguments Raise {A} e.

#[export] Instance outcome_ret : MRet outcome := @Ret.
#[export] Instance outcome_bind : MBind outcome := λ A B f m,
  match m with Ret a => f a | Raise e => Raise e end.

(** [for a in l: s = body(s, a)], stopping at the first exception. *)
Fixpoint for_in {A S : Type} (l : list A) (body : S → A → outcome S) (s : S)
    : outcome S :=
  match l with
  | [] => Ret s
  | a :: l' => s' ← body s a; for_in l' body s'
  end.

(** *** Floats *)

(** A Python float: an IEEE 754 double. *)
Abbreviation float := spec_float.
Definition prec : Z := 53.
Definition emax : Z := 1024.

Definition fmul : float → float → float := SFmul prec emax.
Definition fadd : float → float → float := SFadd prec emax.
Definition fdiv : float → float → float := SFdiv prec emax.

(** The double nearest to an integer (ties to even); an infinity when the
    integer lies beyond the doubles. *)
Definition float_of_Z (z : Z) : float := binary_normalize prec emax z 0 false.

(** The double that a decimal literal such as [3.6] denotes: the double
    nearest to it.  (The quotient of two integers that are doubles is
    rounded once.) *)
Definition literal (q : Q) : float :=
  fdiv (float_of_Z (Qnum q)) (float_of_Z (Z.pos (Qden q))).

(** An int used where a float is needed, as in [int * float]. *)
Definition py_float (z : Z) : outcome float :=
  match float_of_Z z with
  | S754_infinity _ =>
      Raise (Exn OverflowError "int too large to convert to float")
  | f => Ret f
  end.

(** A Python number: an int or a float. *)
Inductive number : Type :=
  | Int (z : Z)
  | Float (f : float).

Definition to_float (n : number) : outcome float :=
  match n with
  | Int z => py_float z
  | Float f => Ret f
  end.

(** [a * b] and [a + b]: exact on two ints, otherwise on doubles. *)
Definition num_mul (a b : number) : outcome number :=
  match a, b with
  | Int x, Int y => Ret (Int (x * y))
  | _, _ => fa ← to_float a; fb ← to_float b; mret (Float (fmul fa fb))
  end.

Definition num_add (a b : number) : outcome number :=
  match a, b with
  | Int x, Int y => Ret (Int (x + y))
  | _, _ => fa ← to_float a; fb ← to_float b; mret (Float (fadd fa fb))
  end.

(** [int(n)]: truncation towards zero. *)
Definition py_int (n : number) : outcome Z :=
  match n with
  | Int z => Ret z
  | Float (S754_zero _) => Ret 0
  | Float (S754_finite s m e) => Ret (cond_Zopp s (Z.shiftl (Z.pos m) e))
  | Float (S754_infinity _) =>
      Raise (Exn OverflowError "cannot convert float infinity to integer")
  | Float S754_nan =>
      Raise (Exn ValueError "cannot convert float NaN to integer")
  end.

(** [0 <= n] *)
Definition num_nonneg (n : number) : Prop :=
  match n with
  | Int z => 0 ≤ z
  | Float f => SFleb (S754_zero false) f = true
  end.

(** [below k f]: [f] is finite and [|f| < 2 ^ k]. *)
Definition below (k : Z) (f : float) : Prop :=
  match f with
  | S754_zero _ => True
  | S754_finite _ m e => Z.pos (digits2_pos m) + e ≤ k
  | _ => False
  end.

Definition num_below (k : Z) (n : number) : Prop :=
  match n with
  | Int z => Z.abs z < 2 ^ k
  | Float f => below k f
  end.

(** *** Integers, ranges, lists, arrays *)

(** [a // b] and [a % b] on integers: floor division, the remainder has the
    sign of the divisor, and a zero divisor raises. *)
Definition py_floordiv (a b : Z) : outcome Z :=
  if decide (b = 0)
  then Raise (Exn ZeroDivisionError "integer division or modulo by zero")
  else Ret (a `div` b)%Z.

Definition py_mod (a b : Z) : outcome Z :=
  if decide (b = 0)
  then Raise (Exn ZeroDivisionError "integer division or modulo by zero")
  else Ret (a `mod` b)%Z.

(** [range(start, stop, step)] as the list it enumerates. *)
Definition py_range (start stop step : Z) : outcome (list Z) :=
  if decide (step = 0)
  then Raise (Exn ValueError "range() arg 3 must not be zero")
  else if decide (0 < step)%Z
  then Ret ((λ k, start + k * step)%Z <$>
              seqZ 0 ((stop - start + step - 1) `div` step))
  else Ret ((λ k, start + k * step)%Z <$>
              seqZ 0 ((start - stop - step - 1) `div` (- step))).

(** [l[j]] and [l[j] = x] on a list: a negative index counts from the end,
    an index outside the list raises. *)
Definition py_index {A : Type} (l : list A) (j : Z) : option nat :=
  let n := Z.of_nat (length l) in
  if decide (0 ≤ j < n) then Some (Z.to_nat j)
  else if decide (- n ≤ j < 0) then Some (Z.to_nat (j + n))
  else None.

Definition py_getitem {A : Type} (l : list A) (j : Z) : outcome A :=
  match py_index l j ≫= (l !!.) with
  | Some x => Ret x
  | None => Raise (Exn IndexError "list index out of range")
  end.

Definition py_setitem {A : Type} (l : list A) (j : Z) (x : A)
    : outcome (list A) :=
  match py_index l j with
  | Some i => Ret (<[i:=x]> l)
  | None => Raise (Exn IndexError "list assignment index out of range")
  end.

(** A numpy array of shape [(rows, cols, channels)] and dtype [uint8]: rows
    of pixels, a pixel being the list of its channel values. *)
Abbreviation ndarray := (list (list (list Z))).

(** [np.zeros((h, w, c), dtype=np.uint8)] *)
Definition np_zeros (h w c : Z) : ndarray :=
  replicate (Z.to_nat h) (replicate (Z.to_nat w) (replicate (Z.to_nat c) 0%Z)).

(** [row[lo:hi] = v]: the scalar is broadcast over every channel of the
    pixels in the slice; the part of the slice beyond the row is ignored. *)
Definition fill_row (lo hi v : Z) (row : list (list Z)) : list (list Z) :=
  imap (λ j px, if decide (lo ≤ Z.of_nat j < hi)%Z then (λ _, v) <$> px else px)
       row.

(** [img[y, lo:hi] = v] for [0 <= y] and [0 <= lo]. *)
Definition slice_assign (img : ndarray) (y lo hi v : Z) : ndarray :=
  alter (fill_row lo hi v) (Z.to_nat y) img.

(** [img[y, c, k]] *)
Definition px (img : ndarray) (y c k : nat) : option Z :=
  row ← img !! y; p ← row !! c; p !! k.

(** [img.shape == (h, w, c)] *)
Definition has_shape (img : ndarray) (h w c : Z) : Prop :=
  Z.of_nat (length img) = h ∧
  Forall (λ row, Z.of_nat (length row) = w ∧
                 Forall (λ p : list Z, Z.of_nat (length p) = c) row) img.

(** [3.6] is [0x1.ccccccccccccdp+1], and [0.1 + 0.2] is not [0.3]. *)
Example literal_examples :
  literal 3.6 = S754_finite false 8106479329266893 (-51) ∧
  fadd (literal 0.1) (literal 0.2) = S754_finite false 5404319552844596 (-54) ∧
  literal 0.3 = S754_finite false 5404319552844595 (-54).
Proof. by vm_compute. Qed.

(** [int()] truncates towards zero; [600 * 3e305] is an infinity, and an
    int beyond the doubles does not convert. *)
Example py_int_examples :
  py_int (Float (literal 3.5)) = Ret 3 ∧
  (p ← num_mul (Int (-7)) (Float (literal 0.5)); py_int p) = Ret (-3) ∧
  (p ← num_mul (Int 600) (Float (float_of_Z (3 * 10 ^ 305))); py_int p) =
    Raise (Exn OverflowError "cannot convert float infinity to integer") ∧
  num_mul (Int (10 ^ 400)) (Float (literal 0.5)) =
    Raise (Exn OverflowError "int too large to convert to float").
Proof. by vm_compute. Qed.

Example py_range_examples :
  py_range 0 10 3 = Ret [0; 3; 6; 9] ∧ py_range 10 0 (-3) = Ret [10; 7; 4; 1] ∧
  py_range 0 720 (-52) = Ret [].
Proof. done. Qed.

Example py_getitem_examples :
  py_getitem [1; 2; 3] (-1) = Ret 3 ∧
  py_getitem [1; 2; 3] 3 = Raise (Exn IndexError "list index out of range").
Proof. done. Qed.

Example slice_assign_clips :
  slice_assign [[[0]; [0]; [0]]; [[0]; [0]; [0]]] 1 2 5 255
  = [[[0]; [0]; [0]]; [[0]; [0]; [255]]].
Proof. done. Qed.

End Py.
Import Py.

(* ===================================================================== *)
(** ** Bounds on doubles *)
(* ===================================================================== *)

(** A product or a sum of doubles that are small enough is finite.  The
    bounds are coarse (they lose up to three binary digits at each step),
    which is all the frame generator needs: its numbers stay far below the
    largest double. *)
Module Doubles.

(** The last step of [binary_round_aux]. *)
Definition finish (s : bool) (r : shr_record * Z) : float :=
  match shr_m r.1 with
  | 0 => S754_zero s
  | Z.pos m => if r.2 <=? emax - prec then S754_finite s m r.2
               else S754_infinity s
  | _ => S754_nan
  end.

Lemma digits2_size p : digits2_pos p = Pos.size p.
Proof. induction p; simpl; congruence. Qed.

Lemma digits_gt p : Z.pos p < 2 ^ Z.pos (digits2_pos p).
Proof.
  rewrite digits2_size. pose proof (Pos.size_gt p) as Hlt.
  apply Pos2Z.pos_lt_pos in Hlt. by rewrite Pos2Z.inj_pow in Hlt.
Qed.

Lemma digits_le p : 2 ^ Z.pos (digits2_pos p) ≤ 2 * Z.pos p.
Proof.
  rewrite digits2_size. pose proof (Pos.size_le p) as Hle.
  apply Pos2Z.pos_le_pos in Hle. by rewrite Pos2Z.inj_pow in Hle.
Qed.

Lemma digits_bound p k : 0 ≤ k → Z.pos p < 2 ^ k → Z.pos (digits2_pos p) ≤ k.
Proof.
  intros Hk Hlt. pose proof (digits_le p) as Hle.
  destruct (decide (Z.pos (digits2_pos p) ≤ k)) as [|Hgt]; [done|].
  assert (2 ^ (k + 1) ≤ 2 ^ Z.pos (digits2_pos p)) by (apply Z.pow_le_mono_r; lia).
  rewrite Z.pow_add_r in H by lia. lia.
Qed.

Lemma Zdigits2_bound z k : 0 ≤ k → Z.abs z < 2 ^ k → Zdigits2 z ≤ k.
Proof.
  intros Hk Hz. destruct z as [|p|p]; simpl in *; [done|..];
    by apply digits_bound.
Qed.

Lemma shr_1_m r : 0 ≤ shr_m r → shr_m (shr_1 r) = shr_m r / 2.
Proof.
  destruct r as [m r s]. simpl. intros Hm.
  destruct m as [|[p|p|]|p]; simpl; [done| | |done|lia].
  - rewrite Pos2Z.inj_xI. apply (Z.div_unique_pos _ 2 _ 1); lia.
  - rewrite Pos2Z.inj_xO. apply (Z.div_unique_pos _ 2 _ 0); lia.
Qed.

Lemma shr_1_nonneg r : 0 ≤ shr_m r → 0 ≤ shr_m (shr_1 r).
Proof. intros Hm. rewrite shr_1_m by done. apply Z.div_pos; lia. Qed.

Lemma iter_shr_m p : ∀ r,
  0 ≤ shr_m r → shr_m (SpecFloat.iter_pos shr_1 p r) = shr_m r / 2 ^ Z.pos p.
Proof.
  induction p as [p IH|p IH|]; intros r Hr; cbn [SpecFloat.iter_pos].
  - assert (0 ≤ shr_m (shr_1 r)) as H1 by by apply shr_1_nonneg.
    assert (0 ≤ shr_m (SpecFloat.iter_pos shr_1 p (shr_1 r))) as H2.
    { rewrite IH by done. apply Z.div_pos; lia. }
    rewrite IH, IH, shr_1_m by done.
    rewrite !Z.div_div by lia. f_equal.
    replace (Z.pos p~1) with (1 + Z.pos p + Z.pos p) by lia.
    rewrite !Z.pow_add_r by lia. lia.
  - assert (0 ≤ shr_m (SpecFloat.iter_pos shr_1 p r)) as H2.
    { rewrite IH by done. apply Z.div_pos; lia. }
    rewrite IH, IH by done. rewrite Z.div_div by lia. f_equal.
    replace (Z.pos p~0) with (Z.pos p + Z.pos p) by lia.
    by rewrite Z.pow_add_r by lia.
  - rewrite shr_1_m by done. done.
Qed.

Lemma round_nearest_even_range m l :
  m ≤ round_nearest_even m l ≤ m + 1.
Proof.
  destruct l as [|[]]; simpl; try lia. destruct (Z.even m); lia.
Qed.

Lemma below_mono k k' f : below k f → k ≤ k' → below k' f.
Proof. destruct f; simpl; lia || done. Qed.

Lemma binary_round_aux_finish s m e l :
  binary_round_aux prec emax s m e l =
  let r := shr_fexp prec emax m e l in
  finish s (shr_fexp prec emax
              (round_nearest_even (shr_m r.1) (loc_of_shr_record r.1))
              r.2 loc_Exact).
Proof.
  unfold binary_round_aux, finish. destruct (shr_fexp prec emax m e l) as [r e'].
  cbn [fst snd]. by destruct (shr_fexp _ _ _ _ _).
Qed.

Lemma finish_below s mr e :
  0 ≤ mr → Zdigits2 mr ≤ 54 → -1074 ≤ e ≤ 971 → Zdigits2 mr + e ≤ 1024 →
  below (Zdigits2 mr + e) (finish s (shr_fexp prec emax mr e loc_Exact)).
Proof.
  intros Hmr Hd He Hsum.
  unfold shr_fexp, shr, fexp, emin, prec, emax. cbn [shr_record_of_loc].
  change (3 - 1024 - 53) with (-1074).
  destruct (Z.max (Zdigits2 mr + e - 53) (-1074) - e) as [|n|n] eqn:Hn.
  1,3: unfold finish; cbn [fst snd shr_m]; destruct mr as [|p|p];
       [done| |lia]; unfold prec, emax;
       (destruct (Z.leb_spec e (1024 - 53)); [simpl in *; lia|lia]).
  assert (n = 1%positive) as -> by lia.
  assert (Zdigits2 mr = 54) as Hd54 by lia.
  unfold finish. cbn [fst snd SpecFloat.iter_pos].
  pose proof (shr_1_m {| shr_m := mr; shr_r := false; shr_s := false |} Hmr)
    as Hhalf.
  change (shr_m {| shr_m := mr; shr_r := false; shr_s := false |} `div` 2)
    with (mr `div` 2) in Hhalf.
  assert (0 ≤ mr `div` 2) by (apply Z.div_pos; lia).
  destruct (shr_m (shr_1 _)) as [|p|p]; [done| |lia].
  unfold prec, emax. destruct (Z.leb_spec (e + 1) (1024 - 53)); [|lia].
  simpl. rewrite Hd54.
  assert (Z.pos (digits2_pos p) ≤ 53); [|lia].
  apply digits_bound; [done|]. rewrite Hhalf.
  apply Z.div_lt_upper_bound; [done|].
  destruct mr as [|q|q]; [done| |done]. simpl in Hd54.
  pose proof (digits_gt q) as Hq. rewrite Hd54 in Hq.
  change (2 ^ 54) with (2 * 2 ^ 53) in Hq. done.
Qed.

Lemma round_aux_below s m e k :
  Z.pos (digits2_pos m) + e ≤ k → k ≤ 1022 → e ≤ 971 →
  below (Z.max k (-1021) + 2)
        (binary_round_aux prec emax s (Z.pos m) e loc_Exact).
Proof.
  intros Hk Hmax He. rewrite binary_round_aux_finish. cbn zeta.
  unfold shr_fexp at 2 3 4. unfold shr, fexp, emin, prec, emax.
  cbn [Zdigits2 shr_record_of_loc].
  set (d := Z.pos (digits2_pos m)) in *.
  change (3 - 1024 - 53) with (-1074).
  destruct (Z.max (d + e - 53) (-1074) - e) as [|n|n] eqn:Hn.
  1,3: cbn [fst snd shr_m loc_of_shr_record round_nearest_even];
       eapply below_mono; [apply finish_below|]; cbn [Zdigits2]; fold d; lia.
  cbn [fst snd].
  set (r := SpecFloat.iter_pos shr_1 n _).
  assert (Hr : shr_m r = Z.pos m `div` 2 ^ Z.pos n) by (by apply iter_shr_m).
  pose proof (round_nearest_even_range (shr_m r) (loc_of_shr_record r)) as Hrne.
  set (mr := round_nearest_even _ _) in *.
  assert (Hlo : 0 ≤ shr_m r) by (rewrite Hr; apply Z.div_pos; lia).
  assert (Hhi : shr_m r < 2 ^ 53).
  { rewrite Hr. apply Z.div_lt_upper_bound; [lia|].
    pose proof (digits_gt m) as Hm. fold d in Hm.
    assert (2 ^ d ≤ 2 ^ (Z.pos n + 53)) by (apply Z.pow_le_mono_r; lia).
    rewrite Z.pow_add_r in H by lia. lia. }
  assert (Hdg : Zdigits2 mr ≤ 54).
  { apply Zdigits2_bound; [done|]. change (2 ^ 54) with (2 * 2 ^ 53). lia. }
  eapply below_mono; [apply finish_below|]; lia.
Qed.

Lemma pos_iter_xO m d : Z.pos (Pos.iter xO m d) = Z.pos m * 2 ^ Z.pos d.
Proof.
  induction d as [|d IH] using Pos.peano_ind.
  - simpl. lia.
  - rewrite Pos.iter_succ, Pos2Z.inj_xO, IH, Pos2Z.inj_succ.
    rewrite Z.pow_succ_r by lia. lia.
Qed.

Lemma shl_align_spec mx ex ex' :
  let r := shl_align mx ex ex' in
  r.2 = Z.min ex ex' ∧ Z.pos r.1 = Z.pos mx * 2 ^ (ex - r.2).
Proof.
  unfold shl_align. destruct (ex' - ex) as [|d|d] eqn:Hd; cbn [fst snd].
  - split; [lia|]. rewrite Z.sub_diag. lia.
  - split; [lia|]. rewrite Z.sub_diag. lia.
  - split; [lia|]. rewrite pos_iter_xO. f_equal. f_equal. lia.
Qed.

Lemma shifted_digits mx ex k e' :
  Z.pos (digits2_pos mx) + ex ≤ k → e' ≤ ex →
  ∀ mz, Z.pos mz = Z.pos mx * 2 ^ (ex - e') →
  Z.pos (digits2_pos mz) + e' ≤ k.
Proof.
  intros Hk He mz Hmz.
  assert (Z.pos (digits2_pos mz) ≤ Z.pos (digits2_pos mx) + (ex - e')); [|lia].
  apply digits_bound; [lia|]. rewrite Hmz, Z.pow_add_r by lia.
  pose proof (digits_gt mx). apply Z.mul_lt_mono_pos_r; [|done].
  apply Z.pow_pos_nonneg; lia.
Qed.

Lemma binary_round_below s m e k :
  Z.pos (digits2_pos m) + e ≤ k → k ≤ 1022 →
  below (Z.max k (-1021) + 2) (binary_round prec emax s m e).
Proof.
  intros Hk Hmax. unfold binary_round.
  pose proof (shl_align_spec m e (fexp prec emax (Z.pos (digits2_pos m) + e)))
    as [He Hm].
  destruct (shl_align _ _ _) as [mz ez]. cbn [fst snd] in *.
  apply round_aux_below; [|done|].
  - eapply shifted_digits; [done| |done]. lia.
  - unfold fexp, emin, prec, emax in He. lia.
Qed.

Lemma binary_normalize_below z e k :
  Zdigits2 z + e ≤ k → k ≤ 1022 →
  below (Z.max k (-1021) + 2) (binary_normalize prec emax z e false).
Proof.
  intros Hk Hmax. destruct z as [|p|p]; [done|..]; by apply binary_round_below.
Qed.

Lemma float_of_Z_below z k :
  Z.abs z < 2 ^ k → 0 ≤ k ≤ 1022 → below (k + 2) (float_of_Z z).
Proof.
  intros Hz Hk. eapply below_mono; [apply (binary_normalize_below z 0 k)|];
    [|lia..]. pose proof (Zdigits2_bound z k). lia.
Qed.

Lemma fmul_below kx ky x y :
  below kx x → below ky y → -1021 ≤ kx + ky ≤ 973 →
  below (kx + ky + 2) (fmul x y).
Proof.
  intros Hx Hy Hk.
  destruct x as [sx|sx| |sx mx ex], y as [sy|sy| |sy my ey]; try done.
  cbn [below fmul SFmul] in *.
  eapply below_mono; [apply (round_aux_below _ _ _ (kx + ky))|]; [|lia..].
  assert (Z.pos (digits2_pos (mx * my)) ≤
          Z.pos (digits2_pos mx) + Z.pos (digits2_pos my)); [|lia].
  apply digits_bound; [lia|]. rewrite Pos2Z.inj_mul, Z.pow_add_r by lia.
  pose proof (digits_gt mx). pose proof (digits_gt my). nia.
Qed.

Lemma fadd_below k x y :
  below k x → below k y → -1022 ≤ k ≤ 1021 → below (k + 3) (fadd x y).
Proof.
  intros Hx Hy Hk.
  destruct x as [sx|sx| |sx mx ex], y as [sy|sy| |sy my ey]; try done.
  - by destruct sx, sy.
  - eapply below_mono; [exact Hy|lia].
  - eapply below_mono; [exact Hx|lia].
  - cbn [below fadd SFadd] in *.
    pose proof (shl_align_spec mx ex (Z.min ex ey)) as [Hex Hmx].
    pose proof (shl_align_spec my ey (Z.min ex ey)) as [Hey Hmy].
    destruct (shl_align mx _ _) as [mx' ex'], (shl_align my _ _) as [my' ey'].
    cbn [fst snd] in *.
    set (ez := Z.min ex ey) in *.
    eapply below_mono; [apply (binary_normalize_below _ _ (k + 1))|]; [|lia..].
    assert (Hdx : Z.pos (digits2_pos mx') + ez ≤ k).
    { eapply (shifted_digits mx ex k ez); [done|lia|]. rewrite Hmx. do 2 f_equal. lia. }
    assert (Hdy : Z.pos (digits2_pos my') + ez ≤ k).
    { eapply (shifted_digits my ey k ez); [done|lia|]. rewrite Hmy. do 2 f_equal. lia. }
    pose proof (digits_gt mx') as Hgx. pose proof (digits_gt my') as Hgy.
    set (dm := Z.max (Z.pos (digits2_pos mx')) (Z.pos (digits2_pos my'))).
    assert (Z.pos mx' < 2 ^ dm).
    { eapply Z.lt_le_trans; [exact Hgx|]. apply Z.pow_le_mono_r; lia. }
    assert (Z.pos my' < 2 ^ dm).
    { eapply Z.lt_le_trans; [exact Hgy|]. apply Z.pow_le_mono_r; lia. }
    assert (Zdigits2 (cond_Zopp sx (Z.pos mx') + cond_Zopp sy (Z.pos my'))
            ≤ dm + 1); [|lia].
    apply Zdigits2_bound; [lia|]. rewrite Z.pow_add_r by lia.
    destruct sx, sy; simpl cond_Zopp; lia.
Qed.

Lemma py_float_below z k :
  Z.abs z < 2 ^ k → 0 ≤ k ≤ 1022 →
  py_float z = Ret (float_of_Z z) ∧ below (k + 2) (float_of_Z z).
Proof.
  intros Hz Hk. pose proof (float_of_Z_below z k Hz Hk) as Hb.
  unfold py_float. by destruct (float_of_Z z).
Qed.

Lemma shiftl_below m e k :
  Z.pos (digits2_pos m) + e ≤ k → 0 ≤ k → Z.shiftl (Z.pos m) e < 2 ^ k.
Proof.
  intros Hd Hk. pose proof (digits_gt m) as Hm.
  set (d := Z.pos (digits2_pos m)) in *.
  destruct (decide (0 ≤ e)) as [He|He].
  - rewrite Z.shiftl_mul_pow2 by done.
    eapply Z.lt_le_trans; [|apply (Z.pow_le_mono_r 2 (d + e) k); lia].
    rewrite Z.pow_add_r by lia.
    apply Z.mul_lt_mono_pos_r; [apply Z.pow_pos_nonneg; lia|done].
  - rewrite Z.shiftl_div_pow2 by lia.
    apply Z.div_lt_upper_bound; [apply Z.pow_pos_nonneg; lia|].
    eapply Z.lt_le_trans; [exact Hm|].
    rewrite <- Z.pow_add_r by lia. apply Z.pow_le_mono_r; lia.
Qed.

Lemma py_int_below f k :
  below k f → 0 ≤ k → ∃ z, py_int (Float f) = Ret z ∧ Z.abs z < 2 ^ k.
Proof.
  intros Hf Hk. destruct f as [s|s| |s m e]; try done.
  - exists 0. split; [done|]. simpl. apply Z.pow_pos_nonneg; lia.
  - eexists. split; [done|]. pose proof (shiftl_below m e k Hf Hk).
    assert (0 ≤ Z.shiftl (Z.pos m) e) by (by apply Z.shiftl_nonneg).
    destruct s; simpl cond_Zopp; lia.
Qed.

End Doubles.

(* ===================================================================== *)
(** ** The constants of the script *)
(* ===================================================================== *)

Definition W : Z := 720.
Definition H : Z := 1280.
Definition FPS : Z := 24.
Definition DUR : Z := 12.
Definition OUT_DIR : string := "out".

(* ===================================================================== *)
(** ** The speed-line frame generator *)
(* ===================================================================== *)

Module Speedlines.
Import Doubles.

(** [period = W // density; thickness = max(1, period // 3)] *)
Definition stripe_params (density : Z) : outcome (Z * Z) :=
  period ← py_floordiv W density;
  third ← py_floordiv period 3;
  mret (period, Z.max 1 third).

(** Line 30: [shift = int(speed * t)]. *)
Definition shift_at (speed : Z) (t : number) : outcome Z :=
  p ← num_mul (Int speed) t;
  py_int p.

(** Line 37, up to the remainder: [int(x + dx * y + shift)], a product and
    two sums of doubles, then a truncation. *)
Definition diagonal (dx : float) (shift x y : Z) : outcome Z :=
  p ← num_mul (Float dx) (Int y);
  s ← num_add (Int x) p;
  r ← num_add s (Int shift);
  py_int r.

(** The body of the innermost loop:
    [xi = int(x + dx * y + shift) % period], then [xi < thickness]. *)
Definition paint (dx : float) (period thickness shift y : Z)
    (img : ndarray) (x : Z) : outcome ndarray :=
  v ← diagonal dx shift x y;
  xi ← py_mod v period;
  if decide (xi < thickness)%Z
  then mret (slice_assign img y x (x + thickness) 255)
  else mret img.

(** The closure [make_frame] of [speedlines_clip]; [speed], [dx], [period]
    and [thickness] are the variables it captures. *)
Definition make_frame (speed : Z) (dx : float) (period thickness : Z)
    (t : number) : outcome ndarray :=
  shift ← shift_at speed t;
  let img := np_zeros H W 3 in
  ys ← py_range 0 H 1;
  for_in ys (λ img y,
    xs ← py_range 0 W period;
    for_in xs (paint dx period thickness shift y) img) img.

Example stripe_params_examples :
  stripe_params 14 = Ret (51, 17) ∧ stripe_params 16 = Ret (45, 15) ∧
  stripe_params 18 = Ret (40, 13) ∧ stripe_params 721 = Ret (0, 1) ∧
  stripe_params 0 =
    Raise (Exn ZeroDivisionError "integer division or modulo by zero").
Proof. done. Qed.

(** [math.cos(math.radians(a))] for the angles of the script (-25 by
    default, 20 and -20 at the call sites), for an obtuse angle (120) and
    for an angle of a millionth of a degree: the doubles
    [0.9063077870366499], [0.9396926207859084], [-0.4999999999999998] and
    [0.9999999999999999]. *)
Definition cos_minus_25 : float := S754_finite false 8163294823962471 (-53).
Definition cos_20 : float := S754_finite false 8463998673628444 (-53).
Definition cos_120 : float := S754_finite true 9007199254740988 (-54).
Definition cos_millionth : float := S754_finite false 9007199254740991 (-53).

(** *** The stripe pattern, pixel by pixel *)

(** The stride positions [range(0, W, period)] of a row. *)
Definition strides (period : Z) : list Z :=
  (λ k, 0 + k * period) <$> seqZ 0 ((W - 0 + period - 1) `div` period).

(** The value of [int(x + dx * y + shift)] where it is defined. *)
Definition diag (dx : float) (shift x y : Z) : Z :=
  match diagonal dx shift x y with
  | Ret v => v
  | Raise _ => 0
  end.

(** The diagonal index of stride position [x] in row [y] after the pattern
    moved by [shift]. *)
Definition stripe_index (dx : float) (period shift x y : Z) : Z :=
  diag dx shift x y `mod` period.

(** Column [c] of row [y] lies in a streak: some stride position [x] whose
    index [idx x y] is below the thickness has [x <= c < x + thickness]. *)
Definition in_streak (idx : Z → Z → Z) (thickness : Z) (xs : list Z)
    (y c : Z) : bool :=
  existsb (λ x, bool_decide (idx x y < thickness) &&
                bool_decide (x ≤ c < x + thickness)) xs.

(** The frame whose pixel [(y, c)] is white when [lit y c] and black
    otherwise. *)
Definition frame_of (lit : Z → Z → bool) : ndarray :=
  (λ y, (λ c, replicate 3 (if lit y c then 255 else 0)) <$> seqZ 0 W)
    <$> seqZ 0 H.

(** The frame drawn from the indices [idx] of the stride positions. *)
Definition stripes (period thickness : Z) (idx : Z → Z → Z) : ndarray :=
  frame_of (in_streak idx thickness (strides period)).

(** The frame of time [0] with its pattern moved by [shift] along the stripe
    modulus: every diagonal index of time [0] grows by [shift], modulo the
    period. *)
Definition translated (dx : float) (period thickness shift : Z) : ndarray :=
  stripes period thickness
    (λ x y, (stripe_index dx period 0 x y + shift) `mod` period).

(** Adding the shift commutes with the truncation at every stride position
    of every row: [int(x + dx * y + shift) = int(x + dx * y + 0) + shift]. *)
Definition commutes (dx : float) (period shift : Z) : bool :=
  forallb (λ y, forallb (λ x, diag dx shift x y =? diag dx 0 x y + shift)
                        (strides period))
          (seqZ 0 H).

(** What the inner loop does to row [y]. *)
Definition streak_row (idx : Z → Z → Z) (thickness y : Z) (xs : list Z)
    (row : list (list Z)) : list (list Z) :=
  foldl (λ row x, if decide (idx x y < thickness)
                  then fill_row x (x + thickness) 255 row else row) row xs.

Lemma H_val : H = 1280.
Proof. reflexivity. Qed.

Lemma W_val : W = 720.
Proof. reflexivity. Qed.

(* The proofs below never need the 1280 rows and 720 columns spelled out. *)
#[local] Opaque W H.

(** *** The two loops *)

Lemma diagonal_diag dx shift x y v :
  diagonal dx shift x y = Ret v → diagonal dx shift x y = Ret (diag dx shift x y).
Proof. intros Hv. unfold diag. by rewrite Hv. Qed.

Section loops.
Context (dx : float) (period thickness shift : Z).
Hypothesis period_nonzero : period ≠ 0.

Lemma paint_eq y img x :
  diagonal dx shift x y = Ret (diag dx shift x y) →
  paint dx period thickness shift y img x =
  Ret (if decide (stripe_index dx period shift x y < thickness)
       then slice_assign img y x (x + thickness) 255 else img).
Proof.
  intros Hv. unfold paint, py_mod, stripe_index. rewrite Hv.
  cbn [mbind outcome_bind].
  destruct (decide (period = 0)) as [|_]; [done|]. cbn.
  by destruct (decide (_ < thickness)).
Qed.

Lemma paint_row y xs img :
  Forall (λ x, diagonal dx shift x y = Ret (diag dx shift x y)) xs →
  for_in xs (paint dx period thickness shift y) img =
  Ret (alter (streak_row (stripe_index dx period shift) thickness y xs)
             (Z.to_nat y) img).
Proof.
  intros Hxs. revert img.
  induction Hxs as [|x xs Hx _ IH]; intros img; cbn [for_in].
  - f_equal. symmetry. by apply list_alter_id.
  - rewrite paint_eq by done. cbn. rewrite IH. f_equal.
    unfold streak_row at 2. cbn [foldl].
    destruct (decide (stripe_index dx period shift x y < thickness)); [|done].
    unfold slice_assign. by rewrite list_alter_alter_eq.
Qed.

End loops.

Lemma streak_row_lookup idx thickness y xs row (j : nat) :
  streak_row idx thickness y xs row !! j =
  (λ p, if in_streak idx thickness xs y (Z.of_nat j)
        then (λ _, 255) <$> p else p) <$> row !! j.
Proof.
  revert row. induction xs as [|x xs IH]; intros row; simpl.
  - by destruct (row !! j).
  - rewrite IH. clear IH.
    destruct (decide (idx x y < thickness)) as [Hlt|Hge].
    + rewrite (bool_decide_eq_true_2 _ Hlt). simpl.
      unfold fill_row. rewrite list_lookup_imap.
      destruct (row !! j) as [p|]; simpl; [|done]. f_equal.
      destruct (decide (x ≤ Z.of_nat j < x + thickness)) as [Hin|Hout].
      * rewrite (bool_decide_eq_true_2 _ Hin).
        destruct (in_streak _ _ _ _ _); [|done].
        by rewrite <- list_fmap_compose.
      * by rewrite (bool_decide_eq_false_2 _ Hout).
    + by rewrite (bool_decide_eq_false_2 _ Hge).
Qed.

Lemma paint_rows_lookup {A} (R : Z → A → A) (img : list A) n i :
  foldl (λ img y, alter (R y) (Z.to_nat y) img) img (seqZ 0 (Z.of_nat n)) !! i
  = (if decide (i < n)%nat then R (Z.of_nat i) <$> img !! i else img !! i).
Proof.
  induction n as [|n IH].
  - simpl. destruct (decide (i < 0)%nat); [lia|done].
  - rewrite seqZ_S, foldl_snoc. rewrite Z.add_0_l, Nat2Z.id.
    destruct (decide (n = i)) as [->|Hne].
    + rewrite list_lookup_alter_eq, IH.
      destruct (decide (i < i)%nat); [lia|].
      destruct (decide (i < S i)%nat); [done|lia].
    + rewrite list_lookup_alter_ne by done. rewrite IH.
      destruct (decide (i < n)%nat), (decide (i < S n)%nat); try done; lia.
Qed.

Lemma py_range_upto n : py_range 0 n 1 = Ret (seqZ 0 n).
Proof.
  unfold py_range. destruct (decide (1 = 0)); [done|].
  destruct (decide (0 < 1)); [|lia]. f_equal.
  replace ((n - 0 + 1 - 1) `div` 1) with n by (rewrite Z.div_1_r; lia).
  rewrite <- (list_fmap_id (seqZ 0 n)) at 2.
  apply list_fmap_ext. intros _ k _. simpl. lia.
Qed.

(** A negative period gives no stride position at all. *)
Lemma strides_negative period : period < 0 → strides period = [].
Proof.
  intros Hp. unfold strides. rewrite seqZ_nil; [done|].
  rewrite <- Z.div_opp_opp by lia. apply Z.lt_succ_r.
  apply Z.div_lt_upper_bound; rewrite ?W_val; lia.
Qed.

Lemma py_range_strides period :
  period ≠ 0 → py_range 0 W period = Ret (strides period).
Proof.
  intros Hp. unfold py_range. destruct (decide (period = 0)); [done|].
  destruct (decide (0 < period)); [done|].
  rewrite strides_negative by lia. rewrite seqZ_nil; [done|].
  apply Z.lt_succ_r. apply Z.div_lt_upper_bound; rewrite ?W_val; lia.
Qed.

Lemma strides_positive period x :
  period ≠ 0 → x ∈ strides period → 1 ≤ period ∧ 0 ≤ x < W.
Proof.
  intros Hp Hx. destruct (decide (period < 0)) as [Hneg|Hpos].
  - rewrite strides_negative in Hx by done. by apply elem_of_nil in Hx.
  - split; [lia|]. revert Hx. unfold strides. rewrite list_elem_of_fmap.
    intros (k & -> & Hk). apply elem_of_seqZ in Hk. split; [nia|].
    assert (k + 1 ≤ (W - 0 + period - 1) `div` period) as Hk' by lia.
    pose proof (Z.mul_div_le (W - 0 + period - 1) period ltac:(lia)). nia.
Qed.

(** With a period other than zero, a shift that line 30 computed and
    truncations that are all defined, the two loops of [make_frame] end
    without an exception, and the frame they leave is [stripes]. *)
Lemma make_frame_stripes speed dx period thickness t shift :
  period ≠ 0 → shift_at speed t = Ret shift →
  (∀ x y, x ∈ strides period → 0 ≤ y < H →
          diagonal dx shift x y = Ret (diag dx shift x y)) →
  make_frame speed dx period thickness t =
  Ret (stripes period thickness (stripe_index dx period shift)).
Proof.
  intros Hp Hshift Hdef. unfold make_frame. rewrite Hshift.
  cbn [mbind outcome_bind].
  rewrite py_range_upto, py_range_strides by done. cbn [mbind outcome_bind].
  set (idx := stripe_index dx period shift).
  assert (Hloop : ∀ ys img, Forall (λ y, 0 ≤ y < H) ys →
    for_in ys (λ img y,
      for_in (strides period) (paint dx period thickness shift y) img) img
    = Ret (foldl (λ img y, alter (streak_row idx thickness y (strides period))
                                 (Z.to_nat y) img) img ys)).
  { intros ys img Hys. revert img.
    induction Hys as [|y ys Hy _ IH]; intros img; cbn [for_in foldl]; [done|].
    rewrite paint_row; [apply IH|done|].
    apply Forall_forall. intros x Hx. by apply Hdef. }
  rewrite Hloop by (apply Forall_forall; intros y Hy;
                    apply elem_of_seqZ in Hy; lia).
  clear Hloop. apply (f_equal Ret).
  unfold stripes, frame_of, np_zeros.
  generalize (strides period). intros xs.
  assert (Hh : 0 ≤ H) by (rewrite H_val; lia).
  assert (Hw : 0 ≤ W) by (rewrite W_val; lia).
  clear Hdef. revert Hh Hw. generalize H W. intros h w Hh Hw.
  apply list_eq. intros i.
  pose proof (paint_rows_lookup (λ y, streak_row idx thickness y xs)
    (replicate (Z.to_nat h) (replicate (Z.to_nat w) (replicate (Z.to_nat 3) 0)))
    (Z.to_nat h) i) as Hrows.
  rewrite Z2Nat.id in Hrows by done. rewrite Hrows. clear Hrows.
  rewrite list_lookup_fmap.
  destruct (decide (i < Z.to_nat h)%nat) as [Hi|Hi].
  - rewrite lookup_replicate_2 by done.
    rewrite lookup_seqZ_lt by lia. simpl. f_equal.
    apply list_eq. intros j. rewrite streak_row_lookup, list_lookup_fmap.
    destruct (decide (j < Z.to_nat w)%nat) as [Hj|Hj].
    + rewrite lookup_replicate_2 by done.
      rewrite lookup_seqZ_lt by lia. simpl. f_equal.
      by destruct (in_streak _ _ _ _ _).
    + rewrite (proj1 (lookup_replicate_None _ _ _)) by lia.
      by rewrite lookup_seqZ_ge by lia.
  - rewrite (proj1 (lookup_replicate_None _ _ _)) by lia.
    by rewrite lookup_seqZ_ge by lia.
Qed.

(** With a period of zero, [range(0, W, 0)] raises in the first pass of the
    outer loop. *)
Lemma make_frame_period_0 speed dx thickness t shift :
  shift_at speed t = Ret shift →
  make_frame speed dx 0 thickness t =
  Raise (Exn ValueError "range() arg 3 must not be zero").
Proof.
  intros Hshift. unfold make_frame. rewrite Hshift, py_range_upto.
  cbn [mbind outcome_bind].
  rewrite seqZ_cons by (rewrite H_val; lia). reflexivity.
Qed.

(** *** Where the truncations are defined *)

(** Line 30 on a time below [2 ^ 900] and a speed below [2 ^ 31]. *)
Lemma shift_at_bounded speed t :
  Z.abs speed < 2 ^ 31 → num_below 900 t →
  ∃ shift, shift_at speed t = Ret shift ∧ Z.abs shift < 2 ^ 1000.
Proof.
  intros Hspeed Ht. unfold shift_at. destruct t as [z|f].
  - exists (speed * z). split; [done|]. cbn in Ht. rewrite Z.abs_mul.
    change (2 ^ 1000) with (2 ^ 31 * 2 ^ 969).
    assert (2 ^ 900 ≤ 2 ^ 969) by (by apply Z.pow_le_mono_r).
    apply Z.mul_lt_mono_nonneg; lia.
  - cbn [num_mul to_float num_below] in *.
    destruct (py_float_below speed 31) as [-> Hb]; [done|lia|].
    cbn [mbind outcome_bind mret outcome_ret].
    pose proof (fmul_below 33 900 _ f Hb Ht ltac:(lia)) as Hprod.
    destruct (py_int_below _ 935 Hprod) as (z & -> & Hz); [lia|].
    exists z. split; [done|].
    assert (2 ^ 935 ≤ 2 ^ 1000) by (by apply Z.pow_le_mono_r). lia.
Qed.

(** Line 37 on a pixel of the frame, a cosine (any double below 2 in
    absolute value) and a shift below [2 ^ 1000]. *)
Lemma diagonal_defined dx shift x y :
  below 1 dx → Z.abs shift < 2 ^ 1000 → 0 ≤ x < W → 0 ≤ y < H →
  diagonal dx shift x y = Ret (diag dx shift x y).
Proof.
  intros Hdx Hshift Hx Hy. rewrite W_val in Hx. rewrite H_val in Hy.
  assert (∃ v, diagonal dx shift x y = Ret v) as [v Hv];
    [|by eapply diagonal_diag].
  unfold diagonal. cbn [num_mul num_add to_float].
  destruct (py_float_below y 11) as [-> Hfy]; [simpl; lia|lia|].
  cbn [mbind outcome_bind mret outcome_ret].
  pose proof (fmul_below 1 13 _ _ Hdx Hfy ltac:(lia)) as Hp.
  destruct (py_float_below x 10) as [-> Hfx]; [simpl; lia|lia|].
  cbn [mbind outcome_bind mret outcome_ret to_float].
  pose proof (fadd_below 16 (float_of_Z x) _
                (below_mono (10 + 2) 16 _ Hfx ltac:(lia)) Hp ltac:(lia)) as Hs.
  cbn [num_add to_float].
  destruct (py_float_below shift 1000) as [-> Hfs]; [done|lia|].
  cbn [mbind outcome_bind mret outcome_ret].
  pose proof (fadd_below 1002 _ (float_of_Z shift)
                (below_mono (16 + 3) 1002 _ Hs ltac:(lia)) Hfs ltac:(lia)) as Hr.
  destruct (py_int_below _ 1005 Hr) as (v & -> & _); [lia|]. by exists v.
Qed.

(** Within these bounds [make_frame] returns the frame [stripes] of the
    shift that line 30 computed. *)
Lemma make_frame_returns speed dx period thickness t :
  Z.abs speed < 2 ^ 31 → num_below 900 t → below 1 dx → period ≠ 0 →
  ∃ shift,
    shift_at speed t = Ret shift ∧ Z.abs shift < 2 ^ 1000 ∧
    make_frame speed dx period thickness t =
      Ret (stripes period thickness (stripe_index dx period shift)).
Proof.
  intros Hspeed Ht Hdx Hp.
  destruct (shift_at_bounded speed t Hspeed Ht) as (shift & Hshift & Hb).
  exists shift. split; [done|]. split; [done|].
  apply make_frame_stripes; [done..|]. intros x y Hx Hy.
  apply strides_positive in Hx as [_ Hx]; [|done].
  by apply diagonal_defined.
Qed.

(** The frame of a shift that is known. *)
Lemma make_frame_at speed dx period thickness t shift :
  shift_at speed t = Ret shift → Z.abs shift < 2 ^ 1000 → below 1 dx →
  period ≠ 0 →
  make_frame speed dx period thickness t =
    Ret (stripes period thickness (stripe_index dx period shift)).
Proof.
  intros Hshift Hb Hdx Hp. apply make_frame_stripes; [done..|].
  intros x y Hx Hy. apply strides_positive in Hx as [_ Hx]; [|done].
  by apply diagonal_defined.
Qed.

Lemma commutes_spec dx period shift :
  commutes dx period shift = true →
  ∀ x y, x ∈ strides period → 0 ≤ y < H →
         diag dx shift x y = diag dx 0 x y + shift.
Proof.
  unfold commutes. rewrite forallb_forall. intros Hall x y Hx Hy.
  specialize (Hall y). rewrite forallb_forall in Hall.
  apply Z.eqb_eq. apply Hall.
  - apply list_elem_of_In, elem_of_seqZ. lia.
  - by apply list_elem_of_In.
Qed.

Lemma in_streak_ext idx1 idx2 thickness xs y c :
  (∀ x, x ∈ xs → idx1 x y = idx2 x y) →
  in_streak idx1 thickness xs y c = in_streak idx2 thickness xs y c.
Proof.
  unfold in_streak. induction xs as [|x xs IH]; intros Hext; simpl; [done|].
  rewrite Hext by left. f_equal. apply IH. intros x' Hx'. apply Hext. by right.
Qed.

(** Index functions that agree on the stride positions of the rows of the
    frame draw the same frame. *)
Lemma stripes_ext period thickness idx1 idx2 :
  (∀ x y, x ∈ strides period → 0 ≤ y < H → idx1 x y = idx2 x y) →
  stripes period thickness idx1 = stripes period thickness idx2.
Proof.
  intros Hext. unfold stripes, frame_of.
  apply list_fmap_ext. intros i y Hy. apply lookup_seqZ in Hy.
  apply list_fmap_ext. intros j c _. f_equal.
  rewrite (in_streak_ext idx1 idx2); [done|].
  intros x Hx. apply Hext; [done|lia].
Qed.

(** *** Shape and pixels of a frame *)

Lemma frame_of_shape lit : has_shape (frame_of lit) H W 3.
Proof.
  unfold has_shape, frame_of. split.
  - rewrite length_fmap, length_seqZ, H_val. lia.
  - apply Forall_fmap, Forall_forall. intros y _. cbn beta. split.
    + rewrite length_fmap, length_seqZ, W_val. lia.
    + apply Forall_fmap, Forall_forall. by intros c _.
Qed.

Lemma frame_of_values lit :
  Forall (Forall (Forall (λ v, v = 0 ∨ v = 255))) (frame_of lit).
Proof.
  unfold frame_of. apply Forall_fmap, Forall_forall. intros y _. cbn beta.
  apply Forall_fmap, Forall_forall. intros c _. unfold compose. cbn.
  destruct (lit y c); repeat apply Forall_cons_2; auto using Forall_nil_2.
Qed.

Lemma frame_of_px lit (y c k : nat) :
  Z.of_nat y < H → Z.of_nat c < W → (k < 3)%nat →
  px (frame_of lit) y c k =
  Some (if lit (Z.of_nat y) (Z.of_nat c) then 255 else 0).
Proof.
  intros Hy Hc Hk. unfold px, frame_of.
  rewrite list_lookup_fmap, lookup_seqZ_lt by done. cbn.
  rewrite list_lookup_fmap, lookup_seqZ_lt by done. cbn.
  destruct k as [|[|[|k]]]; try done. lia.
Qed.

(** A pixel of [stripes] is white exactly when its column lies in the
    streak of a stride position whose index is below the thickness. *)
Lemma stripes_px_white period thickness idx (y c k : nat) :
  Z.of_nat y < H → Z.of_nat c < W → (k < 3)%nat →
  px (stripes period thickness idx) y c k = Some 255 ↔
  ∃ x, x ∈ strides period ∧ idx x (Z.of_nat y) < thickness ∧
       x ≤ Z.of_nat c < x + thickness.
Proof.
  intros Hy Hc Hk. unfold stripes. rewrite frame_of_px by done.
  unfold in_streak.
  destruct (existsb _ _) eqn:Hex.
  - split; [intros _|done]. apply existsb_exists in Hex as (x & Hx & Hb).
    apply andb_true_iff in Hb as [H1 H2].
    apply bool_decide_eq_true in H1, H2.
    exists x. by rewrite list_elem_of_In.
  - split; [done|]. intros (x & Hx & H1 & H2). exfalso.
    assert (Hex' : existsb (λ x, bool_decide (idx x (Z.of_nat y) < thickness)
              && bool_decide (x ≤ Z.of_nat c < x + thickness))
              (strides period) = true); [|congruence].
    apply existsb_exists. exists x. rewrite <- list_elem_of_In. split; [done|].
    by rewrite !bool_decide_eq_true_2.
Qed.

Lemma stripe_params_ok density :
  1 ≤ density ≤ W →
  ∃ period thickness,
    stripe_params density = Ret (period, thickness) ∧
    1 ≤ period ∧ 1 ≤ thickness ≤ period.
Proof.
  intros Hd. unfold stripe_params, py_floordiv.
  destruct (decide (density = 0)); [lia|].
  destruct (decide (3 = 0)); [lia|]. cbn [mbind outcome_bind mret outcome_ret].
  assert (1 ≤ W `div` density).
  { apply Z.div_le_lower_bound; lia. }
  eexists _, _. split; [done|]. split; [done|].
  pose proof (Z.div_le_upper_bound (W `div` density) 3 (W `div` density)). lia.
Qed.

(** *** The frame as a shifted pattern *)

(** C5, as the code has it.  For a time [0 <= t < 2 ^ 900], a speed below
    [2 ^ 31] in absolute value, a cosine [dx] and a period other than zero,
    line 30 computes a shift [int(speed * t)] and [make_frame(t)] returns
    the stripe pattern of that shift: a stride position [x] of row [y]
    carries a streak exactly when [int(x + dx * y + shift) % period], in the
    arithmetic of doubles, is below the thickness.  The frame at time 0 is
    the pattern of shift 0.  The frame at time [t] is the frame of time 0
    with its pattern moved by the shift, modulo the period, whenever adding
    the shift commutes with the truncation at every stride position of
    every row. *)
Theorem make_frame_shifted_stripes speed dx period thickness t :
  num_nonneg t → num_below 900 t → Z.abs speed < 2 ^ 31 → below 1 dx →
  period ≠ 0 →
  ∃ shift,
    shift_at speed t = Ret shift ∧
    (∀ x y, x ∈ strides period → 0 ≤ y < H →
            diagonal dx shift x y = Ret (diag dx shift x y)) ∧
    make_frame speed dx period thickness t =
      Ret (stripes period thickness (stripe_index dx period shift)) ∧
    make_frame speed dx period thickness (Int 0) =
      Ret (stripes period thickness (stripe_index dx period 0)) ∧
    ((∀ x y, x ∈ strides period → 0 ≤ y < H →
             diag dx shift x y = diag dx 0 x y + shift) →
     make_frame speed dx period thickness t =
       Ret (translated dx period thickness shift)).
Proof.
  intros _ Ht Hspeed Hdx Hp.
  destruct (make_frame_returns speed dx period thickness t)
    as (shift & Hshift & Hb & Hframe); [done..|].
  exists shift. split; [done|]. split; [|split; [done|split]].
  - intros x y Hx Hy. apply strides_positive in Hx as [_ Hx]; [|done].
    by apply diagonal_defined.
  - apply (make_frame_at speed dx period thickness (Int 0) 0); [|done..].
    unfold shift_at. cbn. by rewrite Z.mul_0_r.
  - intros Hcomm. rewrite Hframe. apply (f_equal Ret).
    apply stripes_ext. intros x y Hx Hy. unfold stripe_index.
    rewrite Hcomm by done. by rewrite Z.add_mod_idemp_l.
Qed.

Lemma make_frame_shifted_stripes_witness :
  shift_at 500 (Float (literal 0.5)) = Ret 250 ∧
  make_frame 500 cos_20 45 15 (Float (literal 0.5)) =
    Ret (translated cos_20 45 15 250).
Proof.
  destruct (make_frame_shifted_stripes 500 cos_20 45 15 (Float (literal 0.5)))
    as (shift & Hshift & _ & _ & _ & Htranslated).
  - by vm_compute.
  - by vm_compute.
  - by vm_compute.
  - by vm_compute.
  - done.
  - assert (shift = 250) as ->.
    { vm_compute in Hshift. by injection Hshift. }
    split; [reflexivity|]. apply Htranslated, commutes_spec. by vm_compute.
Defined.

(** *** Where the frame is not the translated pattern *)

Lemma px_first_column lit (y : nat) :
  (y < 20)%nat →
  px (frame_of lit) y 0 0 = Some (if lit (Z.of_nat y) 0 then 255 else 0).
Proof.
  intros Hy. apply (frame_of_px lit y 0 0); rewrite ?H_val, ?W_val; lia.
Qed.

(** A sum of doubles that rounds up to the next integer: the cosine of a
    millionth of a degree is [0.9999999999999999], and
    [0.9999999999999999 + 67] is [68.0]. *)
Lemma rounded_frame_black :
  px (stripes 51 17 (stripe_index cos_millionth 51 67)) 1 0 0 = Some 0.
Proof. unfold stripes. rewrite px_first_column by lia. by vm_compute. Qed.

Lemma rounded_translated_white :
  px (translated cos_millionth 51 17 67) 1 0 0 = Some 255.
Proof.
  unfold translated, stripes. rewrite px_first_column by lia. by vm_compute.
Qed.

(** A negative cosine. *)
Lemma obtuse_frame_white :
  px (stripes 51 17 (stripe_index cos_120 51 18)) 3 0 0 = Some 255.
Proof. unfold stripes. rewrite px_first_column by lia. by vm_compute. Qed.

Lemma obtuse_translated_black : px (translated cos_120 51 17 18) 3 0 0 = Some 0.
Proof.
  unfold translated, stripes. rewrite px_first_column by lia. by vm_compute.
Qed.

(** A negative speed. *)
Lemma reversed_frame_white :
  px (stripes 51 17 (stripe_index cos_20 51 (-18))) 19 0 0 = Some 255.
Proof. unfold stripes. rewrite px_first_column by lia. by vm_compute. Qed.

Lemma reversed_translated_black :
  px (translated cos_20 51 17 (-18)) 19 0 0 = Some 0.
Proof.
  unfold translated, stripes. rewrite px_first_column by lia. by vm_compute.
Qed.

(** C5, as the specification has it, fails where a sum of doubles rounds
    across an integer, where [int()], which rounds towards zero, meets a
    negative number, and where the period is zero.
    - An angle of a millionth of a degree, default density and speed, time
      0.112 (shift 67): the code leaves the first pixel of row 1 black, and
      the frame of time 0 moved by 67 has it white.
    - An angle of 120 degrees (negative cosine), time 0.03 (shift 18): the
      code paints the first pixel of row 3 white, where the frame of time 0
      moved by 18 has it black.
    - A speed of -600 at 20 degrees, time 0.03 (shift -18): the first pixel
      of row 19 is white, and black in the frame of time 0 moved by -18.
    - A period of zero (a density above the frame width): [make_frame]
      raises. *)
Lemma make_frame_not_translated :
  (stripe_params 14 = Ret (51, 17) ∧
   shift_at 600 (Float (literal 0.112)) = Ret 67 ∧
   ∃ img, make_frame 600 cos_millionth 51 17 (Float (literal 0.112)) = Ret img ∧
          px img 1 0 0 = Some 0 ∧
          px (translated cos_millionth 51 17 67) 1 0 0 = Some 255 ∧
          img ≠ translated cos_millionth 51 17 67) ∧
  (shift_at 600 (Float (literal 0.03)) = Ret 18 ∧
   ∃ img, make_frame 600 cos_120 51 17 (Float (literal 0.03)) = Ret img ∧
          px img 3 0 0 = Some 255 ∧
          px (translated cos_120 51 17 18) 3 0 0 = Some 0 ∧
          img ≠ translated cos_120 51 17 18) ∧
  (shift_at (-600) (Float (literal 0.03)) = Ret (-18) ∧
   ∃ img, make_frame (-600) cos_20 51 17 (Float (literal 0.03)) = Ret img ∧
          px img 19 0 0 = Some 255 ∧
          px (translated cos_20 51 17 (-18)) 19 0 0 = Some 0 ∧
          img ≠ translated cos_20 51 17 (-18)) ∧
  (stripe_params 721 = Ret (0, 1) ∧
   make_frame 600 cos_20 0 1 (Float (literal 0.03)) =
     Raise (Exn ValueError "range() arg 3 must not be zero")).
Proof.
  split; [|split; [|split]].
  - split; [reflexivity|]. split; [by vm_compute|].
    exists (stripes 51 17 (stripe_index cos_millionth 51 67)).
    split; [by apply make_frame_at; vm_compute|].
    split; [exact rounded_frame_black|].
    split; [exact rounded_translated_white|].
    intros Heq. pose proof rounded_frame_black as Hblack.
    rewrite Heq, rounded_translated_white in Hblack. discriminate Hblack.
  - split; [by vm_compute|].
    exists (stripes 51 17 (stripe_index cos_120 51 18)).
    split; [by apply make_frame_at; vm_compute|].
    split; [exact obtuse_frame_white|].
    split; [exact obtuse_translated_black|].
    intros Heq. pose proof obtuse_frame_white as Hwhite.
    rewrite Heq, obtuse_translated_black in Hwhite. discriminate Hwhite.
  - split; [by vm_compute|].
    exists (stripes 51 17 (stripe_index cos_20 51 (-18))).
    split; [by apply make_frame_at; vm_compute|].
    split; [exact reversed_frame_white|].
    split; [exact reversed_translated_black|].
    intros Heq. pose proof reversed_frame_white as Hwhite.
    rewrite Heq, reversed_translated_black in Hwhite. discriminate Hwhite.
  - split; [reflexivity|]. by apply (make_frame_period_0 _ _ _ _ 18); vm_compute.
Qed.

(** *** The frame as a buffer *)

(** C8, as the code has it.  For a density between 1 and the frame width
    (so that the period [W // density] is at least one pixel), a time
    [0 <= t < 2 ^ 900], a speed below [2 ^ 31] in absolute value and a
    cosine [dx], [make_frame(t)] returns an array of shape
    [(1280, 720, 3)] whose every entry is 0 or 255. *)
Theorem make_frame_buffer density speed dx t :
  1 ≤ density ≤ 720 →
  num_nonneg t → num_below 900 t → Z.abs speed < 2 ^ 31 → below 1 dx →
  ∃ period thickness img,
    stripe_params density = Ret (period, thickness) ∧
    make_frame speed dx period thickness t = Ret img ∧
    has_shape img 1280 720 3 ∧
    Forall (Forall (Forall (λ v, v = 0 ∨ v = 255))) img.
Proof.
  intros Hd _ Ht Hspeed Hdx. rewrite <- W_val, <- H_val in *.
  destruct (stripe_params_ok density Hd) as (p & th & Hpar & Hp & _).
  destruct (make_frame_returns speed dx p th t)
    as (shift & _ & _ & Hframe); [done..|lia|].
  exists p, th. eexists. split; [done|]. split; [done|].
  split; [apply frame_of_shape|apply frame_of_values].
Qed.

Lemma make_frame_buffer_witness :
  ∃ period thickness img,
    stripe_params 14 = Ret (period, thickness) ∧
    make_frame 600 cos_minus_25 period thickness (Float (literal (1 # 24)))
      = Ret img ∧
    has_shape img 1280 720 3 ∧
    Forall (Forall (Forall (λ v, v = 0 ∨ v = 255))) img.
Proof.
  apply (make_frame_buffer 14 600 cos_minus_25 (Float (literal (1 # 24)))).
  - lia.
  - by vm_compute.
  - by vm_compute.
  - by vm_compute.
  - by vm_compute.
Defined.

#[local] Transparent W H.

(** C8, as the specification has it, fails.  A density of 721 is at least
    1, the period [720 // 721] is 0, and [range(0, W, 0)] raises in the first
    pass of the outer loop.  And a time of [3e305] is not negative, but
    [600 * 3e305] is an infinity, whose [int()] raises in line 30. *)
Lemma make_frame_density_721 :
  (stripe_params 721 = Ret (0, 1) ∧
   make_frame 600 cos_minus_25 0 1 (Float (literal (1 # 24))) =
     Raise (Exn ValueError "range() arg 3 must not be zero")) ∧
  (stripe_params 14 = Ret (51, 17) ∧
   num_nonneg (Float (float_of_Z (3 * 10 ^ 305))) ∧
   make_frame 600 cos_minus_25 51 17 (Float (float_of_Z (3 * 10 ^ 305))) =
     Raise (Exn OverflowError "cannot convert float infinity to integer")).
Proof.
  split; (split; [reflexivity|]).
  - by apply (make_frame_period_0 _ _ _ _ 25); vm_compute.
  - split; by vm_compute.
Qed.

End Speedlines.

(* ===================================================================== *)
(** ** Random numbers: [random.Random], [randint], [random.sample] *)
(* ===================================================================== *)

Module Rand.

(** The generator of Python's [random] module, as far as the script depends
    on it: [seed n] is the state of [random.Random(n)], and [randbelow n g]
    draws an integer below [n > 0] from state [g] and gives the next state.
    Which integer is drawn is left open; that it lies in [range(n)] is the
    contract of CPython's [_randbelow]. *)
Class PRNG : Type := {
  rng : Type;
  seed : Z → rng;
  randbelow : Z → rng → Z * rng;
  randbelow_range : ∀ n g, 0 < n → 0 ≤ (randbelow n g).1 < n;
}.

(** A linear congruential generator: one instance of the interface. *)
Definition lcg_randbelow (n g : Z) : Z * Z :=
  (g `mod` n, (1103515245 * g + 12345) `mod` 2147483648).

Lemma lcg_randbelow_range n g : 0 < n → 0 ≤ (lcg_randbelow n g).1 < n.
Proof. intros Hn. simpl. by apply Z.mod_pos_bound. Qed.

Definition lcg : PRNG :=
  {| rng := Z; seed n := n; randbelow := lcg_randbelow;
     randbelow_range := lcg_randbelow_range |}.

Section random.
Context `{PRNG}.

(** [Random.randint(a, b)], that is [randrange(a, b + 1)]. *)
Definition randint (a b : Z) (g : rng) : outcome (Z * rng) :=
  let width := b + 1 - a in
  if decide (0 < width)
  then let '(r, g') := randbelow width g in Ret (a + r, g')
  else Raise (Exn ValueError "empty range for randrange()").

(** One pass of the selection loop of [Random.sample]:
    [j = randbelow(n - i); result[i] = pool[j]; pool[j] = pool[n - i - 1]]. *)
Definition sample_step {A : Type} (n : Z) (st : list A * list A * rng) (i : Z)
    : outcome (list A * list A * rng) :=
  let '(pool, result, g) := st in
  let '(j, g') := randbelow (n - i) g in
  x ← py_getitem pool j;
  y ← py_getitem pool (n - i - 1);
  pool' ← py_setitem pool j y;
  mret (pool', result ++ [x], g').

(** [Random.sample(population, k)] for a population of at most 21 elements,
    where CPython selects from a copy of the population (the roster of the
    script has six entries). *)
Definition random_sample {A : Type} (population : list A) (k : Z) (g : rng)
    : outcome (list A * rng) :=
  let n := Z.of_nat (length population) in
  if decide (0 ≤ k ≤ n)
  then
    passes ← py_range 0 k 1;
    '(_, result, g') ← for_in passes (sample_step n) (population, [], g);
    mret (result, g')
  else Raise (Exn ValueError "Sample larger than population or is negative").

(** [int(t * 1000)], from which line 51 seeds the generator. *)
Definition time_key (t : number) : outcome Z :=
  p ← num_mul t (Int 1000);
  py_int p.

(** [shake_pos(intensity)]: the position function it returns, applied to
    the time [t]. *)
Definition shake_pos (intensity : Z) (t : number) : outcome (Z * Z) :=
  k ← time_key t;
  let g := seed (k + 42) in
  '(x, g) ← randint (- intensity) intensity g;
  '(y, _) ← randint (- intensity) intensity g;
  mret (x, y).

(** *** [randint] stays in its range *)

Lemma randint_range a b g :
  a ≤ b →
  ∃ r g', randint a b g = Ret (r, g') ∧ a ≤ r ≤ b.
Proof.
  intros Hab. unfold randint.
  destruct (decide (0 < b + 1 - a)) as [Hw|]; [|lia].
  pose proof (randbelow_range (b + 1 - a) g Hw) as Hr.
  destruct (randbelow (b + 1 - a) g) as [r g']. simpl in Hr.
  exists (a + r), g'. split; [done|lia].
Qed.

(** *** [random.sample] draws distinct elements *)

Lemma py_getitem_lookup {A} (l : list A) (j : Z) (x : A) :
  0 ≤ j → l !! Z.to_nat j = Some x → py_getitem l j = Ret x.
Proof.
  intros Hj Hx. unfold py_getitem, py_index.
  apply lookup_lt_Some in Hx as Hlen.
  destruct (decide (0 ≤ j < Z.of_nat (length l))); [|lia].
  simpl. by rewrite Hx.
Qed.

Lemma py_setitem_insert {A} (l : list A) (j : Z) (x : A) :
  0 ≤ j < Z.of_nat (length l) → py_setitem l j x = Ret (<[Z.to_nat j:=x]> l).
Proof.
  intros Hj. unfold py_setitem, py_index.
  by destruct (decide (0 ≤ j < Z.of_nat (length l))).
Qed.

(** Moving the last element of a prefix into slot [j] and setting the old
    element of slot [j] aside only reorders the prefix. *)
Lemma swap_out_Permutation {A} (l : list A) (j m : nat) (x y : A) :
  (j ≤ m)%nat → l !! j = Some x → l !! m = Some y →
  take m (<[j:=y]> l) ++ [x] ≡ₚ take (S m) l.
Proof.
  intros Hjm Hx Hy. rewrite (take_S_r l m y) by done.
  destruct (decide (j = m)) as [->|Hne].
  - rewrite take_insert_ge by done. by simplify_eq.
  - rewrite take_insert_lt by lia.
    assert (Hx' : take m l !! j = Some x) by (rewrite lookup_take_lt; [done|lia]).
    rewrite <- (take_drop_middle (take m l) j x) at 2 by done.
    rewrite insert_take_drop by (by eapply lookup_lt_Some).
    rewrite <- !(assoc_L (++)). simpl.
    apply Permutation_app_head.
    rewrite (comm (++) _ [x]), (comm (++) _ [y]). simpl. apply perm_swap.
Qed.

Lemma sample_step_spec {A} (population pool result : list A) (i : Z) g :
  let n := Z.of_nat (length population) in
  0 ≤ i < n → length pool = length population →
  take (Z.to_nat (n - i)) pool ++ result ≡ₚ population →
  ∃ pool' x g',
    sample_step n (pool, result, g) i = Ret (pool', result ++ [x], g') ∧
    length pool' = length population ∧
    take (Z.to_nat (n - (i + 1))) pool' ++ (result ++ [x]) ≡ₚ population.
Proof.
  intros n Hi Hlen Hperm. unfold sample_step.
  pose proof (randbelow_range (n - i) g ltac:(lia)) as Hj.
  destruct (randbelow (n - i) g) as [j g']. simpl in Hj.
  destruct (lookup_lt_is_Some_2 pool (Z.to_nat j) ltac:(lia)) as [x Hx].
  destruct (lookup_lt_is_Some_2 pool (Z.to_nat (n - i - 1)) ltac:(lia))
    as [y Hy].
  rewrite (py_getitem_lookup pool j x) by (done || lia).
  rewrite (py_getitem_lookup pool (n - i - 1) y) by (done || lia).
  cbn [mbind outcome_bind]. rewrite py_setitem_insert by lia.
  eexists _, x, g'. split; [done|]. split; [by rewrite length_insert|].
  rewrite (assoc_L (++)), (comm (++) _ [x]), (assoc_L (++)) in *.
  rewrite <- Hperm. apply Permutation_app_tail.
  replace (Z.to_nat (n - i)) with (S (Z.to_nat (n - i - 1))) by lia.
  replace (n - (i + 1)) with (n - i - 1) by lia.
  rewrite (comm (++) [x]).
  apply swap_out_Permutation; [lia|done..].
Qed.

Lemma sample_loop_spec {A} (population : list A) (c : nat) :
  let n := Z.of_nat (length population) in
  ∀ (i : Z) (pool result : list A) g,
  0 ≤ i → i + Z.of_nat c ≤ n → length pool = length population →
  take (Z.to_nat (n - i)) pool ++ result ≡ₚ population →
  ∃ pool' drawn g',
    for_in (seqZ i (Z.of_nat c)) (sample_step n) (pool, result, g)
      = Ret (pool', result ++ drawn, g') ∧
    length drawn = c ∧
    take (Z.to_nat (n - (i + Z.of_nat c))) pool' ++ (result ++ drawn)
      ≡ₚ population.
Proof.
  intros n. subst n.
  induction c as [|c IH]; intros i pool result g Hi Hic Hlen Hperm.
  - exists pool, [], g. rewrite app_nil_r, Z.add_0_r. by cbn.
  - rewrite seqZ_cons by lia. cbn [for_in].
    destruct (sample_step_spec population pool result i g)
      as (pool1 & x & g1 & -> & Hlen1 & Hperm1); [lia|done..|].
    cbn [mbind outcome_bind].
    replace (Z.pred (Z.of_nat (S c))) with (Z.of_nat c) by lia.
    destruct (IH (Z.succ i) pool1 (result ++ [x]) g1)
      as (pool2 & drawn & g2 & -> & Hlen2 & Hperm2); [lia|lia|done|..].
    { by replace (Z.succ i) with (i + 1) by lia. }
    exists pool2, (x :: drawn), g2. rewrite <- (assoc_L (++)) in *. simpl in *.
    split; [done|]. split; [by f_equal|].
    by replace (i + Z.of_nat (S c)) with (Z.succ i + Z.of_nat c) by lia.
Qed.

(** [sample(population, k)] of a duplicate-free population returns [k]
    pairwise distinct elements of the population. *)
Lemma random_sample_spec {A} (population : list A) (k : Z) g :
  NoDup population → 0 ≤ k ≤ Z.of_nat (length population) →
  ∃ result g',
    random_sample population k g = Ret (result, g') ∧
    Z.of_nat (length result) = k ∧ NoDup result ∧
    ∀ x, x ∈ result → x ∈ population.
Proof.
  intros Hnd Hk. unfold random_sample.
  destruct (decide (0 ≤ k ≤ Z.of_nat (length population))); [|done].
  rewrite Speedlines.py_range_upto. cbn [mbind outcome_bind].
  destruct (sample_loop_spec population (Z.to_nat k) 0 population [] g)
    as (pool & drawn & g' & Hrun & Hlen & Hperm); [lia|lia|done|..].
  { rewrite Z.sub_0_r, Nat2Z.id, firstn_all. by rewrite app_nil_r. }
  rewrite Z2Nat.id in Hrun by lia. rewrite Hrun.
  exists drawn, g'. simpl in *. split; [done|]. split; [lia|].
  rewrite <- Hperm in Hnd. apply NoDup_app in Hnd as (_ & _ & Hnd).
  split; [done|]. intros x Hx. rewrite <- Hperm. apply elem_of_app. by right.
Qed.

(** Line 51 on a time below [2 ^ 900]. *)
Lemma time_key_defined t : num_below 900 t → ∃ k, time_key t = Ret k.
Proof.
  intros Ht. unfold time_key. destruct t as [z|f]; [by eexists|].
  cbn [num_mul to_float num_below] in *. cbn [mbind outcome_bind].
  destruct (Doubles.py_float_below 1000 10) as [-> Hb]; [done|lia|].
  cbn [mbind outcome_bind mret outcome_ret].
  pose proof (Doubles.fmul_below 900 12 f _ Ht Hb ltac:(lia)) as Hprod.
  destruct (Doubles.py_int_below _ 914 Hprod) as (k & -> & _); [lia|].
  by exists k.
Qed.

(** C10, as the code has it.  For an intensity [i >= 0] and a time below
    [2 ^ 900] in absolute value, the position function of [shake_pos(i)]
    returns a pair of offsets in [[-i, i]]; and two times with the same
    [int(t * 1000)] get the same result. *)
Theorem shake_pos_bounded_deterministic intensity t1 t2 :
  0 ≤ intensity → num_below 900 t1 →
  (∃ x y, shake_pos intensity t1 = Ret (x, y) ∧
          - intensity ≤ x ≤ intensity ∧ - intensity ≤ y ≤ intensity) ∧
  (time_key t1 = time_key t2 →
   shake_pos intensity t1 = shake_pos intensity t2).
Proof.
  intros Hi Ht. split.
  - unfold shake_pos. destruct (time_key_defined t1 Ht) as [k ->].
    cbn [mbind outcome_bind].
    destruct (randint_range (- intensity) intensity (seed (k + 42)))
      as (x & g1 & -> & Hx); [lia|]. cbn [mbind outcome_bind].
    destruct (randint_range (- intensity) intensity g1)
      as (y & g2 & -> & Hy); [lia|]. cbn [mbind outcome_bind].
    by exists x, y.
  - intros Heq. unfold shake_pos. by rewrite Heq.
Qed.

End random.

Example random_sample_lcg :
  @random_sample lcg _ ["KAZE"; "RYU"; "AKIRA"; "SHIN"; "YUMI"; "REI"] 2 12345
  = Ret (["SHIN"; "RYU"], 654583775).
Proof. by vm_compute. Qed.

(** [int(4.9 * 1000)] is 4900, and [int(0.009 * 1000)] is 9. *)
Example shake_pos_lcg :
  time_key (Float (literal 4.9)) = Ret 4900 ∧
  time_key (Float (literal 0.009)) = Ret 9 ∧
  @shake_pos lcg 20 (Float (literal 4.9)) = Ret (2, -3) ∧
  @shake_pos lcg (-1) (Float (literal 4.9)) =
    Raise (Exn ValueError "empty range for randrange()").
Proof. by vm_compute. Qed.

Lemma shake_pos_bounded_deterministic_witness :
  let pos := @shake_pos lcg 20 in
  (∃ x y, pos (Float (literal 4.9)) = Ret (x, y) ∧
          - 20 ≤ x ≤ 20 ∧ - 20 ≤ y ≤ 20) ∧
  (time_key (Float (literal 4.9)) = time_key (Float (literal 4.9001)) →
   pos (Float (literal 4.9)) = pos (Float (literal 4.9001))).
Proof.
  intros pos.
  apply (@shake_pos_bounded_deterministic lcg 20 (Float (literal 4.9))
           (Float (literal 4.9001))).
  - lia.
  - by vm_compute.
Defined.

(** C10, as the specification has it, fails at a time such as [1e306]:
    [1e306 * 1000] is an infinity, [int()] of it raises in line 51, and the
    position function returns no offsets. *)
Lemma shake_pos_overflow :
  (0 ≤ 20) ∧
  time_key (Float (float_of_Z (10 ^ 306))) =
    Raise (Exn OverflowError "cannot convert float infinity to integer") ∧
  @shake_pos lcg 20 (Float (float_of_Z (10 ^ 306))) =
    Raise (Exn OverflowError "cannot convert float infinity to integer").
Proof. split; [lia|]. by vm_compute. Qed.

End Rand.

(* ===================================================================== *)
(** ** The moviepy calls of the script *)
(* ===================================================================== *)

(** A clip is the description the script builds by calling moviepy: the
    constructor and the chain of methods applied to it.  moviepy evaluates
    such a description when the file is written; what a description sounds
    or looks like is moviepy's business and is not modelled.  Two things
    that moviepy 1.x (the release line that has [moviepy.editor], which the
    script imports) does while the description is built decide what a run
    does, and are modelled:
    - [VideoClip(make_frame, duration)] evaluates [make_frame(0)] to learn
      the size of the frames, so an exception of [make_frame(0)] leaves the
      constructor;
    - [set_audio] is a method of the video clips; an audio clip has no such
      attribute, and asking for it raises [AttributeError].
    Every other constructor and method is taken to return its clip (whether
    a font or an encoder is installed is a matter of the machine). *)

Module MoviePy.

Inductive position : Type :=
  | Center
  | PositionFn (pos : number → outcome (number * number)).

#[warnings="-register-all"]
Inductive clip : Type :=
  | ColorClip (size : Z * Z) (color : Z * Z * Z) (duration : Q)
  | TextClip (txt : string) (fontsize : Z) (color font : string)
      (size : option (Z * option Z)) (method : option string)
  | VideoClip (make_frame : number → outcome ndarray) (duration : Q)
  | AudioClip (make_frame : R → R) (duration : Q) (fps : Z)
  | CompositeVideoClip (clips : list clip) (size : Z * Z)
  | set_start (c : clip) (t : Q)
  | set_duration (c : clip) (d : Q)
  (** [c.set_duration(max(c.duration, d))] *)
  | set_duration_max (c : clip) (d : float)
  | set_position (c : clip) (p : position)
  | set_fps (c : clip) (fps : Z)
  | set_opacity (c : clip) (opacity : Q)
  | set_audio (c : clip) (audio : clip)
  | fadein (c : clip) (d : Q)
  | fadeout (c : clip) (d : Q)
  | resize (c : clip) (width : Z)
  | mirror_x (c : clip)
  | audio_fadeout (c : clip) (d : Q)
  | volumex (c : clip) (factor : Q)
  (** [c1 + c2] *)
  | add (c1 c2 : clip).

(** [c.fx(f)] is [f(c)]. *)
Definition fx (c : clip) (f : clip → clip) : clip := f c.

(** [c.audio]: the audio attached by [set_audio], if any.  The methods that
    return a modified copy keep it. *)
Fixpoint audio_of (c : clip) : option clip :=
  match c with
  | set_audio _ a => Some a
  | set_start c _ | set_duration c _ | set_duration_max c _
  | set_position c _ | set_fps c _ | set_opacity c _ => audio_of c
  | _ => None
  end.

(** The sample of an [AudioClip] at time [t]: its [make_frame(t)]. *)
Definition sample (c : clip) (t : R) : option R :=
  match c with
  | AudioClip make_frame _ _ => Some (make_frame t)
  | _ => None
  end.

(** Whether the object that a description denotes is an audio clip: an
    [AudioClip], or what a method returned for one (a method returns a
    modified copy of the object it is called on). *)
Fixpoint is_audio (c : clip) : bool :=
  match c with
  | AudioClip _ _ _ => true
  | ColorClip _ _ _ | TextClip _ _ _ _ _ _ | VideoClip _ _
  | CompositeVideoClip _ _ => false
  | set_start c _ | set_duration c _ | set_duration_max c _
  | set_position c _ | set_fps c _ | set_opacity c _ | set_audio c _
  | fadein c _ | fadeout c _ | resize c _ | mirror_x c
  | audio_fadeout c _ | volumex c _ | add c _ => is_audio c
  end.

(** [pos(t)] for a position that is a function of the time. *)
Definition position_at (p : position) (t : number)
    : option (outcome (number * number)) :=
  match p with
  | PositionFn pos => Some (pos t)
  | Center => None
  end.

Definition no_set_audio : exn :=
  Exn AttributeError "'AudioClip' object has no attribute 'set_audio'".

(** [c.set_audio(a)] *)
Definition call_set_audio (c a : clip) : outcome clip :=
  if is_audio c then Raise no_set_audio else Ret (set_audio c a).

(** [VideoClip(make_frame, duration=duration)] *)
Definition new_VideoClip (make_frame : number → outcome ndarray)
    (duration : Q) : outcome clip :=
  _ ← make_frame (Int 0);
  mret (VideoClip make_frame duration).

End MoviePy.
Import MoviePy.

(* ===================================================================== *)
(** ** Audio helpers *)
(* ===================================================================== *)

Module Audio.
#[local] Open Scope R_scope.

(** [tone(freq, dur, vol=0.2)] *)
Definition tone (freq : R) (dur : Q) (vol : R) : clip :=
  AudioClip (λ t, vol * sin (2 * PI * freq * t)) dur 44100.

(** [whoosh(dur=0.3)] *)
Definition whoosh (dur : Q) : clip :=
  AudioClip (λ t, 0.25 * sin (2 * PI * (80 + 220 * t ^ 2) * t)) dur 44100.

(** [thump(dur=0.18)] *)
Definition thump (dur : Q) : clip :=
  AudioClip (λ t, 0.35 * sin (2 * PI * (60 * (1 - t)) * t) * exp (- 6 * t))
            dur 44100.

(** The formulas of the specification, as functions of the sample time. *)
Definition tone_formula (freq vol t : R) : R := vol * sin (2 * PI * freq * t).
Definition whoosh_formula (t : R) : R :=
  0.25 * sin (2 * PI * (80 + 220 * t²) * t).
Definition thump_formula (t : R) : R :=
  0.35 * sin (2 * PI * (60 * (1 - t)) * t) * exp (- (6 * t)).

(** C6.  Each synthesizer returns an audio clip whose sample at time [t] is
    the closed formula of [t] (and of the arguments of the call) alone:
    nothing else enters it, so two evaluations at equal times give equal
    samples. *)
Theorem synthesizers_closed_form (freq vol : R) (dur : Q) (t t' : R) :
  sample (tone freq dur vol) t = Some (tone_formula freq vol t) ∧
  sample (whoosh dur) t = Some (whoosh_formula t) ∧
  sample (thump dur) t = Some (thump_formula t) ∧
  (t = t' →
   sample (tone freq dur vol) t = sample (tone freq dur vol) t' ∧
   sample (whoosh dur) t = sample (whoosh dur) t' ∧
   sample (thump dur) t = sample (thump dur) t').
Proof.
  split; [reflexivity|]. split; [|split].
  - cbn. unfold whoosh_formula, Rsqr. do 3 f_equal. ring.
  - cbn. unfold thump_formula. do 3 f_equal. ring.
  - by intros ->.
Qed.

End Audio.

(* ===================================================================== *)
(** ** Effects: what a run prints, draws and calls *)
(* ===================================================================== *)

Module Effects.
Import Rand.

(** The objects handed to the upload API.  Each records the arguments it
    was built from. *)
Record credentials : Type := Credentials {
  refresh_token : string;
  client_id : string;
  client_secret : string;
  token_uri : string;
  scopes : list string;
}.

Record service : Type := Service {
  service_name : string;
  service_version : string;
  service_credentials : credentials;
}.

Record media : Type := MediaFileUpload {
  media_path : string;
  chunksize : Z;
  resumable : bool;
}.

Record request_body : Type := Body {
  snippet_title : string;
  snippet_description : string;
  snippet_categoryId : string;
  snippet_tags : list string;
  status_privacyStatus : string;
}.

Record insert_request : Type := Insert {
  insert_service : service;
  insert_part : string;
  insert_body : request_body;
  insert_media : media;
}.

(** The calls that leave the script.  The first two touch the file system
    and the encoder; the others belong to the upload. *)
Inductive call : Type :=
  | os_makedirs (path : string)
  | write_videofile (c : clip) (path : string) (fps : Z)
      (codec audio_codec : string) (threads : Z) (preset : string)
  | import (module : string)
  | new_Credentials (c : credentials)
  | build (s : service)
  | new_MediaFileUpload (m : media)
  | videos_insert (r : insert_request)
  | execute (r : insert_request).

(** Whether a call belongs to the upload step. *)
Definition is_upload_call (c : call) : bool :=
  match c with
  | os_makedirs _ | write_videofile _ _ _ _ _ _ _ => false
  | _ => true
  end.

Inductive event : Type :=
  | Printed (line : string)
  | Called (c : call).

(** What the script cannot decide itself: the environment variables, the
    date, the cosine of the C library ([cos_degrees a] is
    [math.cos(math.radians(a))]), which calls raise, and what the upload
    answers. *)
Record world : Type := World {
  environ : gmap string string;
  strftime_today : string → string;
  cos_degrees : Z → float;
  raises : call → option exn;
  response : insert_request → gmap string string;
}.

Section monad.
Context `{PRNG}.

(** The state a run threads: the events so far, oldest first, and the state
    of the module-level generator of [random]. *)
Record state : Type := State {
  events : list event;
  generator : rng;
}.

Definition M (A : Type) : Type := state → outcome A * state.

#[export] Instance M_ret : MRet M := λ A a st, (Ret a, st).
#[export] Instance M_bind : MBind M := λ A B f m st,
  match m st with
  | (Ret a, st') => f a st'
  | (Raise e, st') => (Raise e, st')
  end.

Definition emit (e : event) : M unit :=
  λ st, (Ret (), State (events st ++ [e]) (generator st)).

(** [print(line)] *)
Definition print (line : string) : M unit := emit (Printed line).

Definition raise {A : Type} (e : exn) : M A := λ st, (Raise e, st).

Definition lift {A : Type} (o : outcome A) : M A := λ st, (o, st).

(** A call that leaves the script: it is recorded, then it returns or
    raises as the world says. *)
Definition external (w : world) (c : call) : M unit :=
  emit (Called c);;
  match raises w c with
  | Some e => raise e
  | None => mret ()
  end.

(** A draw from the module-level generator. *)
Definition draw {A : Type} (f : rng → outcome (A * rng)) : M A :=
  λ st, match f (generator st) with
        | Ret (a, g) => (Ret a, State (events st) g)
        | Raise e => (Raise e, st)
        end.

(** [try: body  except Exception as e: handler(e)].  An exception that is
    not an instance of [Exception] passes through. *)
Definition try_except {A : Type} (body : M A) (handler : exn → M A) : M A :=
  λ st, match body st with
        | (Ret a, st') => (Ret a, st')
        | (Raise e, st') =>
            if is_Exception e then handler e st' else (Raise e, st')
        end.

(** [raises_only P m]: whatever the state, an exception that leaves [m]
    satisfies [P]. *)
Definition raises_only {A : Type} (P : exn → Prop) (m : M A) : Prop :=
  ∀ st, match (m st).1 with Raise e => P e | Ret _ => True end.

Lemma raises_only_ret {A} P (a : A) : raises_only P (mret a).
Proof. by intros st. Qed.

Lemma raises_only_bind {A B} P (m : M A) (f : A → M B) :
  raises_only P m → (∀ a, raises_only P (f a)) → raises_only P (m ≫= f).
Proof.
  intros Hm Hf st. specialize (Hm st). cbv [mbind M_bind].
  destruct (m st) as [[a|e] st']; [apply Hf|done].
Qed.

Lemma raises_only_print P line : raises_only P (print line).
Proof. by intros st. Qed.

Lemma raises_only_lift {A} (P : exn → Prop) (o : outcome A) :
  (∀ e, o = Raise e → P e) → raises_only P (lift o).
Proof. intros Ho st. cbn. destruct o; [done|by apply Ho]. Qed.

Lemma raises_only_external (P : exn → Prop) w c :
  (∀ e, raises w c = Some e → P e) → raises_only P (external w c).
Proof.
  intros Hc st. unfold external. cbv [mbind M_bind emit raise mret M_ret].
  cbn. destruct (raises w c) as [e|]; [by apply Hc|done].
Qed.

(** A [try] whose body raises instances of [Exception] only, and whose
    handler does not raise, does not raise. *)
Lemma try_except_returns {A} (body : M A) (handler : exn → M A) st :
  raises_only (λ e, is_Exception e = true) body →
  (∀ e, raises_only (λ _, False) (handler e)) →
  ∃ a st', try_except body handler st = (Ret a, st').
Proof.
  intros Hbody Hhandler. unfold try_except. specialize (Hbody st).
  destruct (body st) as [[a|e] st1]; [by eauto|].
  cbn in Hbody. rewrite Hbody. specialize (Hhandler e st1).
  destruct (handler e st1) as [[a|e'] st2]; [by eauto|done].
Qed.

End monad.

(** The upload calls among the events of a run. *)
Definition upload_calls (evs : list event) : list call :=
  omap (λ e, match e with
             | Called c => if is_upload_call c then Some c else None
             | Printed _ => None
             end) evs.

(** *** Worlds and states to run the script in *)

(** A world with the environment [env] in which no call raises.  The
    script asks for the cosine of 20 and of -20 degrees only. *)
Definition calm (env : gmap string string) : world :=
  World env
        (λ format, if bool_decide (format = "%b %d") then "Nov 03"
                   else "Nov 03, 2026")
        (λ _, Speedlines.cos_20) (λ _, None)
        (λ _, {[ "id" := "dQw4w9WgXcQ" ]}).

(** The three secrets, all set. *)
Definition secrets : gmap string string :=
  {[ "YT_CLIENT_ID" := "id"; "YT_CLIENT_SECRET" := "secret";
     "YT_REFRESH_TOKEN" := "token" ]}.

(** A world with the three secrets in which the insert request raises
    [e]. *)
Definition failing (e : exn) : world :=
  World secrets (strftime_today (calm secrets)) (λ _, Speedlines.cos_20)
        (λ c, match c with
              | execute _ => Some e
              | _ => None
              end)
        (λ _, ∅).

(** The insert request is refused by the server, or interrupted from the
    keyboard. *)
Definition refused : world :=
  failing (Exn (LibraryError "HttpError") "quota exceeded").
Definition interrupted : world := failing (Exn KeyboardInterrupt "").

(** The start of a run, with the linear congruential generator. *)
Definition fresh : @state lcg := @State lcg [] (@seed lcg 2026).

End Effects.

(* ===================================================================== *)
(** ** [build_video] *)
(* ===================================================================== *)

Module Video.
Import Rand Audio Effects.

(** [os.path.join(a, b)] for two components, on a POSIX system. *)
Definition os_path_join (a b : string) : string :=
  if String.prefix "/" b then b
  else if bool_decide (a = "") then b
  else if bool_decide (String.get (String.length a - 1) a = Some "/"%char)
  then a +:+ b
  else a +:+ "/" +:+ b.

Definition OUT_PATH : string := os_path_join OUT_DIR "video.mp4".

Example OUT_PATH_val : OUT_PATH = "out/video.mp4".
Proof. done. Qed.

Definition fighters : list (string * string) :=
  [ ("KAZE", "#ff3b3b"); ("RYU", "#35f0ff"); ("AKIRA", "#ffd23b");
    ("SHIN", "#b05cff"); ("YUMI", "#7bff7b"); ("REI", "#ff7be7") ].

Definition impact_times : list Q :=
  [3.6; 4.2; 5.1; 6.0; 6.9; 7.8; 8.6; 9.2]%Q.

(** [left, right = l] *)
Definition unpack2 {A : Type} (l : list A) : outcome (A * A) :=
  match l with
  | [a; b] => Ret (a, b)
  | _ => Raise (Exn ValueError "not enough or too many values to unpack")
  end.

(** [flash_clip(duration=0.1)] *)
Definition flash_clip (duration : Q) : clip :=
  ColorClip (W, H) (255, 255, 255) duration.

(** One pass of the loop over [impact_times] that builds the audio track
    (lines 115 to 119).  Line 115 asks the clip for [set_audio] before it
    evaluates the argument. *)
Definition audio_pass (audio : clip) (t : Q) : outcome clip :=
  audio ← call_set_audio audio (audio_fadeout audio 0.0);
  let audio := fx audio (λ c, c) in
  let audio := set_duration_max audio (fadd (literal t) (literal 0.2)) in
  let audio := fx (audio_fadeout audio 0.0) (λ c, c) in
  audio ← call_set_audio audio audio;
  call_set_audio audio (volumex (add audio (set_start (thump 0.2) t)) 1).

(** The variable [audio] after the loop (lines 113 to 119). *)
Definition audio_track : outcome clip :=
  for_in impact_times audio_pass (set_start (whoosh 0.35) 1.55).

(** The pass of the refined loop, in the words of the specification: it
    "only extends the duration to [t + 0.2] and overlays [thump(0.2)] at
    each impact time [t]" (lines 116 and 119, the other three dropped). *)
Definition refined_pass (audio : clip) (t : Q) : outcome clip :=
  let audio := set_duration_max audio (fadd (literal t) (literal 0.2)) in
  call_set_audio audio (volumex (add audio (set_start (thump 0.2) t)) 1).

(** *** The loop that builds the audio track *)

(** C7, as the code has it.  The loop starts from an audio clip, and the
    first thing its first pass does is to ask that clip for [set_audio],
    which no audio clip has: line 115 raises [AttributeError], it is not a
    line without effect, and the loop builds no track.  The refined loop
    ends the same way, one line later, at the [set_audio] of line 119. *)
Theorem audio_loop_raises (audio : clip) (t : Q) (times : list Q) :
  is_audio audio = true →
  audio_pass audio t = Raise no_set_audio ∧
  for_in (t :: times) audio_pass audio = Raise no_set_audio ∧
  for_in (t :: times) refined_pass audio = Raise no_set_audio.
Proof.
  intros Haudio.
  assert (Hpass : audio_pass audio t = Raise no_set_audio).
  { unfold audio_pass, call_set_audio. by rewrite Haudio. }
  split; [done|]. split; cbn [for_in]; [by rewrite Hpass|].
  unfold refined_pass, call_set_audio. cbn [is_audio]. by rewrite Haudio.
Qed.

Lemma audio_loop_raises_witness :
  audio_pass (set_start (whoosh 0.35) 1.55) 3.6 = Raise no_set_audio ∧
  audio_track = Raise no_set_audio ∧
  for_in impact_times refined_pass (set_start (whoosh 0.35) 1.55)
    = Raise no_set_audio.
Proof.
  apply (audio_loop_raises (set_start (whoosh 0.35) 1.55) 3.6
           [4.2; 5.1; 6.0; 6.9; 7.8; 8.6; 9.2]%Q).
  reflexivity.
Defined.

Section build.
Context `{PRNG} (w : world).

(** [speedlines_clip(duration=4, density=14, angle_deg=-25, speed=600,
    opacity=0.35)].  [dx] is [math.cos(angle)]; [dy], which the source also
    computes, is never used. *)
Definition speedlines_clip (duration : Q) (density angle_deg speed : Z)
    (opacity : Q) : outcome clip :=
  let dx := cos_degrees w angle_deg in
  '(period, thickness) ← Speedlines.stripe_params density;
  clip ← new_VideoClip (Speedlines.make_frame speed dx period thickness)
                       duration;
  mret (set_opacity (set_fps clip FPS) opacity).

(** The position function of [shake_pos(intensity)], as moviepy takes it. *)
Definition shake_position (intensity : Z) : position :=
  PositionFn (λ t, '(x, y) ← shake_pos intensity t;
                    mret (Int x, Int y)).

(** The position functions of lines 93 and 94:
    [(-W + int(W * 1.2 * t), H * 0.25)] and
    [(W - int(W * 1.2 * t), H * 0.65)]. *)
Definition left_position : position :=
  PositionFn (λ t, a ← num_mul (Int W) (Float (literal 1.2));
                    b ← num_mul a t;
                    k ← py_int b;
                    y ← num_mul (Int H) (Float (literal 0.25));
                    mret (Int (- W + k), y)).

Definition right_position : position :=
  PositionFn (λ t, a ← num_mul (Int W) (Float (literal 1.2));
                    b ← num_mul a t;
                    k ← py_int b;
                    y ← num_mul (Int H) (Float (literal 0.65));
                    mret (Int (W - k), y)).

(** [left, right = random.sample(fighters, 2)] *)
Definition choose_fighters : M ((string * string) * (string * string)) :=
  picked ← draw (random_sample fighters 2);
  lift (unpack2 picked).

(** The clip handed to [write_videofile] (lines 73 to 110 and 122 to 130),
    given the two fighters and the two speed-line layers. *)
Definition composite (left right : string * string) (lines1 lines2 : clip)
    : clip :=
  let bg := ColorClip (W, H) (10, 10, 18) (inject_Z DUR) in
  let title :=
    fx (fx (set_duration
              (set_position
                 (TextClip ("ANIME FIGHT – " +:+ strftime_today w "%b %d")
                    60 "white" "DejaVu-Sans" (Some (W - 60, None))
                    (Some "caption"))
                 Center) 1.5)
           (λ c, fadein c 0.2))
       (λ c, fadeout c 0.2) in
  let left_txt :=
    set_duration (TextClip left.1 110 left.2 "DejaVu-Sans-Oblique" None None)
                 2.5 in
  let right_txt :=
    set_duration (TextClip right.1 110 right.2 "DejaVu-Sans-Oblique" None None)
                 2.5 in
  let left_clip := set_start (set_position left_txt left_position) 1.5 in
  let right_clip := set_start (set_position right_txt right_position) 1.5 in
  let vs :=
    set_start
      (set_position
         (set_duration (TextClip "VS" 140 "white" "DejaVu-Sans" None None) 2.5)
         Center)
      1.6 in
  let action_bg := set_start (ColorClip (W, H) (15, 8, 24) 7) 3.2 in
  let flashes := (λ t, set_start (flash_clip 0.08) t) <$> impact_times in
  let slash :=
    fx (set_position
          (set_start
             (set_duration (TextClip "/" 500 "white" "DejaVu-Sans" None None)
                           0.25)
             4.9)
          (shake_position 20))
       (λ c, resize c 600) in
  let slash2 := fx (set_start slash 7.2) mirror_x in
  let comp :=
    set_fps
      (CompositeVideoClip
         ([bg; title; left_clip; right_clip; vs;
           action_bg; lines1; lines2; slash; slash2] ++ flashes)
         (W, H))
      FPS in
  let base_tone := tone 440 (inject_Z DUR) 0.03 in
  set_audio comp base_tone.

Definition build_video : M string :=
  external w (os_makedirs OUT_DIR);;
  chosen ← choose_fighters;
  let left := chosen.1 in
  let right := chosen.2 in
  lines1 ← lift (speedlines_clip 2.5 16 (-20) 500 0.35);
  lines2 ← lift (speedlines_clip 2.5 18 20 600 0.25);
  _ ← lift audio_track;
  let comp :=
    composite left right (set_start lines1 3.2) (set_start lines2 5.7) in
  print "Rendering video...";;
  external w (write_videofile comp OUT_PATH FPS "libx264" "aac" 4 "medium");;
  print ("Saved: " +:+ OUT_PATH);;
  mret OUT_PATH.

(** *** The roster and the two fighters *)

Lemma fighters_NoDup : NoDup fighters.
Proof. apply (bool_decide_unpack _). by vm_compute. Qed.

Lemma fighters_names_NoDup : NoDup fighters.*1.
Proof. apply (bool_decide_unpack _). by vm_compute. Qed.

Lemma unpack2_pair {A} (l : list A) :
  length l = 2%nat → ∃ a b, l = [a; b] ∧ unpack2 l = Ret (a, b).
Proof.
  destruct l as [|a [|b [|c l]]]; intros Hlen; try done. by exists a, b.
Qed.

(** The draw returns two different entries of the roster and leaves the
    events as they were. *)
Lemma choose_fighters_spec (st : state) :
  ∃ left right g',
    choose_fighters st = (Ret (left, right), State (events st) g') ∧
    left ≠ right ∧ left ∈ fighters ∧ right ∈ fighters.
Proof.
  destruct (random_sample_spec fighters 2 (generator st) fighters_NoDup)
    as (picked & g' & Hrun & Hlen & Hnd & Hin); [done|].
  destruct (unpack2_pair picked) as (a & b & -> & Hunpack); [lia|].
  exists a, b, g'. unfold choose_fighters, draw, lift.
  cbv [mbind M_bind]. rewrite Hrun. cbn [events generator]. rewrite Hunpack.
  apply NoDup_cons in Hnd as [Hab _]. rewrite list_elem_of_singleton in Hab.
  repeat split; [done|apply Hin; left|apply Hin; right; left].
Qed.

(** Two entries of the roster with the same name are the same entry. *)
Lemma fighters_name_inj (a b : string * string) :
  a ∈ fighters → b ∈ fighters → a.1 = b.1 → a = b.
Proof.
  intros Ha Hb Hname.
  apply list_elem_of_lookup in Ha as [i Hi], Hb as [j Hj].
  assert (i = j) as ->; [|congruence].
  eapply NoDup_lookup; [exact fighters_names_NoDup|..];
    rewrite list_lookup_fmap; [rewrite Hi|rewrite Hj]; simpl; by f_equal.
Qed.

(** C4.  Whatever the state of the random generator, the two fighters that
    [build_video] draws are two different entries of the roster of six, and
    they carry different names. *)
Theorem chosen_fighters_distinct (st : state) :
  ∃ left right g',
    choose_fighters st = (Ret (left, right), State (events st) g') ∧
    left ≠ right ∧ left ∈ fighters ∧ right ∈ fighters ∧
    left.1 ≠ right.1 ∧
    fighters.*1 = ["KAZE"; "RYU"; "AKIRA"; "SHIN"; "YUMI"; "REI"].
Proof.
  destruct (choose_fighters_spec st) as (a & b & g' & Hrun & Hab & Ha & Hb).
  exists a, b, g'. repeat split; try done.
  intros Hname. by apply Hab, fighters_name_inj.
Qed.

(** *** A run of [build_video] *)

(** For a density of the frame, a speed below [2 ^ 31] and a cosine,
    [speedlines_clip] returns: [make_frame(0)] does. *)
Lemma speedlines_clip_returns duration density angle_deg speed opacity :
  1 ≤ density ≤ 720 → Z.abs speed < 2 ^ 31 →
  below 1 (cos_degrees w angle_deg) →
  ∃ c, speedlines_clip duration density angle_deg speed opacity = Ret c.
Proof.
  intros Hd Hspeed Hcos. unfold speedlines_clip, new_VideoClip.
  destruct (Speedlines.stripe_params_ok density Hd) as (p & th & -> & Hp & _).
  cbn [mbind outcome_bind].
  destruct (Speedlines.make_frame_returns speed (cos_degrees w angle_deg)
              p th (Int 0)) as (shift & _ & _ & ->); [done|by cbn|done|lia|].
  by eexists.
Qed.

Lemma audio_track_raises : audio_track = Raise no_set_audio.
Proof. reflexivity. Qed.

(** The events of a run of [build_video] that returns, given the clip that
    was rendered. *)
Definition build_events (comp : clip) : list event :=
  [ Called (os_makedirs "out");
    Printed "Rendering video...";
    Called (write_videofile comp "out/video.mp4" 24 "libx264" "aac" 4 "medium");
    Printed "Saved: out/video.mp4" ].

(** No run of [build_video] returns: after the call that creates the
    output directory, its only event, the run ends with an exception, of
    that call, of [speedlines_clip] or of the loop that builds the audio
    track. *)
Lemma build_video_run (st : state) :
  ∃ e g',
    build_video st =
      (Raise e, State (events st ++ [Called (os_makedirs "out")]) g').
Proof.
  set (st1 := State (events st ++ [Called (os_makedirs "out")]) (generator st)).
  destruct (choose_fighters_spec st1)
    as (l & r & g' & Hchoose & _).
  unfold build_video.
  cbv [mbind M_bind external emit raise mret M_ret lift].
  change OUT_DIR with "out".
  destruct (raises w (os_makedirs "out")) as [e|]; [by eexists _, _|].
  fold st1. rewrite Hchoose. cbn [events generator fst snd].
  destruct (speedlines_clip 2.5 16 (-20) 500 0.35) as [lines1|e];
    [|by eexists _, _].
  destruct (speedlines_clip 2.5 18 20 600 0.25) as [lines2|e];
    [|by eexists _, _].
  rewrite audio_track_raises. by eexists _, _.
Qed.

(** When the output directory can be created, and with cosines that are
    cosines, the exception is the [AttributeError] of line 115. *)
Lemma build_video_raises (st : state) :
  raises w (os_makedirs "out") = None →
  below 1 (cos_degrees w (-20)) → below 1 (cos_degrees w 20) →
  ∃ g',
    build_video st =
      (Raise no_set_audio,
       State (events st ++ [Called (os_makedirs "out")]) g').
Proof.
  intros Hmk Hcos1 Hcos2.
  set (st1 := State (events st ++ [Called (os_makedirs "out")]) (generator st)).
  destruct (choose_fighters_spec st1)
    as (l & r & g' & Hchoose & _).
  unfold build_video.
  cbv [mbind M_bind external emit raise mret M_ret lift].
  change OUT_DIR with "out". rewrite Hmk.
  fold st1. rewrite Hchoose. cbn [events generator fst snd].
  destruct (speedlines_clip_returns 2.5 16 (-20) 500 0.35)
    as [lines1 ->]; [lia|done|done|].
  destruct (speedlines_clip_returns 2.5 18 20 600 0.25)
    as [lines2 ->]; [lia|done|done|].
  rewrite audio_track_raises. by eexists.
Qed.

(** *** The audio of the composite *)

(** C1, as the code has it.  The loop that builds the layered track raises
    at its first pass (line 115), so a run of [build_video] that could
    create the output directory ends there with [AttributeError]: its only
    event is the creation of the directory, no composite is built, and
    nothing is rendered.  And the composite of lines 122 to 130, whatever
    the fighters, is given the constant 440 Hz tone as its audio, not the
    variable [audio]. *)
Theorem audio_track_never_attached (st : state) :
  raises w (os_makedirs "out") = None →
  below 1 (cos_degrees w (-20)) → below 1 (cos_degrees w 20) →
  audio_track = Raise no_set_audio ∧
  (∃ g', build_video st =
           (Raise no_set_audio,
            State (events st ++ [Called (os_makedirs "out")]) g')) ∧
  ∀ left right lines1 lines2,
    audio_of (composite left right lines1 lines2) =
      Some (tone 440 (inject_Z DUR) 0.03).
Proof.
  intros Hmk Hcos1 Hcos2. split; [exact audio_track_raises|].
  split; [by apply build_video_raises|done].
Qed.

End build.

(** At the time [29/12] (the double [2.4166666666666665]) the product
    [864.0 * t] is the double [2088.0]: the left name stands at
    [x = -720 + 2088], the right name at [x = 720 - 2088]. *)
Example name_positions :
  position_at left_position (Float (literal (29 # 12))) =
    Some (Ret (Int 1368, Float (float_of_Z 320))) ∧
  position_at right_position (Float (literal (29 # 12))) =
    Some (Ret (Int (-1368), Float (float_of_Z 832))).
Proof. by vm_compute. Qed.

Example choose_fighters_lcg :
  @choose_fighters lcg fresh =
  (Ret (("YUMI", "#7bff7b"), ("AKIRA", "#ffd23b")), @State lcg [] 783686008).
Proof. reflexivity. Qed.

Lemma audio_track_never_attached_witness :
  audio_track = Raise no_set_audio ∧
  (∃ g', @build_video lcg (calm ∅) fresh =
           (Raise no_set_audio, @State lcg [Called (os_makedirs "out")] g')) ∧
  ∀ left right lines1 lines2,
    audio_of (@composite lcg (calm ∅) left right lines1 lines2) =
      Some (tone 440 (inject_Z DUR) 0.03).
Proof.
  apply (@audio_track_never_attached lcg (calm ∅) fresh).
  - reflexivity.
  - by vm_compute.
  - by vm_compute.
Defined.

End Video.

(* ===================================================================== *)
(** ** [maybe_upload_to_youtube] and [main] *)
(* ===================================================================== *)

Module Upload.
Import Rand Effects Video.

(** The truth value of what [os.getenv] returns: [None] and the empty
    string are false. *)
Definition truthy (v : option string) : bool :=
  match v with
  | Some s => negb (bool_decide (s = ""))
  | None => false
  end.

(** [d[key]] on a dictionary *)
Definition dict_getitem (d : gmap string string) (key : string)
    : outcome string :=
  match d !! key with
  | Some v => Ret v
  | None => Raise (Exn KeyError ("'" +:+ key +:+ "'"))
  end.

Definition skip_notice : string := "YouTube secrets not set. Skipping upload.".

Section upload.
Context `{PRNG} (w : world).

(** [os.getenv(name)] *)
Definition getenv (name : string) : option string := environ w !! name.

(** The body of the [try] (lines 148 to 176). *)
Definition upload_attempt (cid csec rtok video_path : string) : M unit :=
  external w (import "google.oauth2.credentials");;
  external w (import "googleapiclient.discovery");;
  external w (import "googleapiclient.http");;
  let creds :=
    Credentials rtok cid csec "https://oauth2.googleapis.com/token"
                ["https://www.googleapis.com/auth/youtube.upload"] in
  external w (new_Credentials creds);;
  let yt := Service "youtube" "v3" creds in
  external w (build yt);;
  let today := strftime_today w "%b %d, %Y" in
  let title := "AI Anime Fight • " +:+ today in
  let desc := "Auto-generated anime-style motion graphic. #anime #shorts" in
  let body :=
    Body title desc "24" ["anime"; "fight"; "motion graphics"; "shorts"]
         "public" in
  let media := MediaFileUpload video_path (-1) false in
  external w (new_MediaFileUpload media);;
  print "Uploading to YouTube...";;
  let request := Insert yt "snippet,status" body media in
  external w (videos_insert request);;
  external w (execute request);;
  let resp := response w request in
  id ← lift (dict_getitem resp "id");
  print ("Uploaded: https://www.youtube.com/watch?v=" +:+ id).

Definition maybe_upload_to_youtube (video_path : string) : M unit :=
  let cid := getenv "YT_CLIENT_ID" in
  let csec := getenv "YT_CLIENT_SECRET" in
  let rtok := getenv "YT_REFRESH_TOKEN" in
  if negb (truthy cid && truthy csec && truthy rtok)
  then print skip_notice
  else
    try_except
      (upload_attempt (default "" cid) (default "" csec) (default "" rtok)
                      video_path)
      (λ e, print ("YouTube upload failed: " +:+ exn_str e)).

Definition main : M unit :=
  path ← build_video w;
  maybe_upload_to_youtube path.

(** *** Without the three secrets *)

Lemma maybe_upload_skips path (st : state) :
  truthy (getenv "YT_CLIENT_ID") && truthy (getenv "YT_CLIENT_SECRET")
    && truthy (getenv "YT_REFRESH_TOKEN") = false →
  maybe_upload_to_youtube path st =
  (Ret (), State (events st ++ [Printed skip_notice]) (generator st)).
Proof. intros Hno. unfold maybe_upload_to_youtube. by rewrite Hno. Qed.

(** [main] never reaches the upload step: [build_video] raises. *)
Lemma main_raises (st : state) :
  ∃ e g',
    main st = (Raise e, State (events st ++ [Called (os_makedirs "out")]) g').
Proof.
  destruct (build_video_run w st) as (e & g' & Hrun).
  exists e, g'. unfold main. cbv [mbind M_bind]. by rewrite Hrun.
Qed.

(** *** With the three secrets *)

Lemma upload_attempt_raises cid csec rtok path :
  (∀ c e, raises w c = Some e → is_Exception e = true) →
  raises_only (λ e, is_Exception e = true) (upload_attempt cid csec rtok path).
Proof.
  intros Hw. unfold upload_attempt.
  repeat (apply raises_only_bind;
          [first [by apply raises_only_external, Hw|apply raises_only_print]
          |intros _]).
  apply raises_only_bind; [|intros id; apply raises_only_print].
  apply raises_only_lift. unfold dict_getitem.
  intros e. by destruct (_ !! _); intros [= <-].
Qed.

Lemma maybe_upload_returns path (st : state) :
  (∀ c e, raises w c = Some e → is_Exception e = true) →
  ∃ st', maybe_upload_to_youtube path st = (Ret (), st').
Proof.
  intros Hw. unfold maybe_upload_to_youtube.
  destruct (negb _); [by eexists|].
  edestruct (try_except_returns (A:=()))
    as ([] & st' & Hrun); [by apply upload_attempt_raises| |by eexists].
  intros e. apply raises_only_print.
Qed.

End upload.

(** C2, as the code has it.  When one of the three variables is absent
    from the environment, [maybe_upload_to_youtube] prints the skip notice,
    calls nothing and returns.  But [main] does not get that far, and
    reports no output path: [build_video] raises after its first call, the
    creation of the output directory, which stays the only event of the
    run. *)
Theorem upload_skipped_without_secrets `{PRNG} (w : world) path (st : state) :
  environ w !! "YT_CLIENT_ID" = None ∨
  environ w !! "YT_CLIENT_SECRET" = None ∨
  environ w !! "YT_REFRESH_TOKEN" = None →
  maybe_upload_to_youtube w path st =
    (Ret (), State (events st ++
                      [Printed "YouTube secrets not set. Skipping upload."])
                   (generator st)) ∧
  ∃ e g',
    main w st = (Raise e, State (events st ++ [Called (os_makedirs "out")]) g').
Proof.
  intros Habsent. split; [|apply main_raises].
  apply maybe_upload_skips. unfold getenv.
  destruct Habsent as [->|[->| ->]]; cbn; rewrite ?andb_false_r; done.
Qed.

Lemma upload_skipped_without_secrets_witness :
  let w := calm {[ "YT_CLIENT_ID" := "id"; "YT_CLIENT_SECRET" := "secret" ]} in
  @maybe_upload_to_youtube lcg w "out/video.mp4" fresh =
    (Ret (), State [Printed "YouTube secrets not set. Skipping upload."]
                   (generator fresh)) ∧
  ∃ e g', @main lcg w fresh = (Raise e, State [Called (os_makedirs "out")] g').
Proof.
  intros w.
  apply (@upload_skipped_without_secrets lcg w "out/video.mp4" fresh).
  right. right. reflexivity.
Defined.

(** C9.  A variable that is set to the empty string counts as unset: the
    upload step prints the skip notice and returns, exactly as it does in
    the environment from which the variable has been removed. *)
Theorem empty_secret_counts_as_unset `{PRNG} (w : world) (name : string)
    path (st : state) :
  name ∈ ["YT_CLIENT_ID"; "YT_CLIENT_SECRET"; "YT_REFRESH_TOKEN"] →
  environ w !! name = Some "" →
  let unset := World (delete name (environ w)) (strftime_today w)
                     (cos_degrees w) (raises w) (response w) in
  maybe_upload_to_youtube w path st = maybe_upload_to_youtube unset path st ∧
  maybe_upload_to_youtube w path st =
    (Ret (), State (events st ++
                      [Printed "YouTube secrets not set. Skipping upload."])
                   (generator st)).
Proof.
  intros Hname Hempty unset.
  assert (Hno : ∀ w', (environ w' !! name = Some "" ∨ environ w' !! name = None)
    → truthy (getenv w' "YT_CLIENT_ID") && truthy (getenv w' "YT_CLIENT_SECRET")
      && truthy (getenv w' "YT_REFRESH_TOKEN") = false).
  { intros w' Hw'. unfold getenv.
    repeat (apply elem_of_cons in Hname as [->|Hname]);
      [| | |by apply elem_of_nil in Hname];
      destruct Hw' as [-> | ->]; cbn; rewrite ?andb_false_r; done. }
  rewrite (maybe_upload_skips w path st) by (apply Hno; by left).
  rewrite (maybe_upload_skips unset path st); [done|].
  apply Hno. right. apply lookup_delete_eq.
Qed.

Lemma empty_secret_counts_as_unset_witness :
  let w := calm (<["YT_REFRESH_TOKEN" := ""]> secrets) in
  @maybe_upload_to_youtube lcg w "out/video.mp4" fresh =
    (Ret (), State [Printed "YouTube secrets not set. Skipping upload."]
                   (generator fresh)).
Proof.
  intros w.
  apply (proj2 (@empty_secret_counts_as_unset lcg w "YT_REFRESH_TOKEN"
                  "out/video.mp4" fresh ltac:(set_solver) ltac:(reflexivity))).
Defined.

(** C3, as the code has it.  With the three secrets set: when every
    exception that a call of the upload step raises is an instance of
    [Exception], [maybe_upload_to_youtube] returns normally; an exception
    that leaves the body of the [try] is logged on a line of its own when
    it is an instance of [Exception], and leaves
    [maybe_upload_to_youtube] unlogged when it is not. *)
Theorem upload_failure_is_caught `{PRNG} (w : world) path (st : state)
    cid csec rtok :
  environ w !! "YT_CLIENT_ID" = Some cid → cid ≠ "" →
  environ w !! "YT_CLIENT_SECRET" = Some csec → csec ≠ "" →
  environ w !! "YT_REFRESH_TOKEN" = Some rtok → rtok ≠ "" →
  ((∀ c e, raises w c = Some e → is_Exception e = true) →
   ∃ st', maybe_upload_to_youtube w path st = (Ret (), st')) ∧
  (∀ e st1,
     upload_attempt w cid csec rtok path st = (Raise e, st1) →
     maybe_upload_to_youtube w path st =
       if is_Exception e
       then (Ret (), State (events st1 ++
                              [Printed ("YouTube upload failed: " +:+ exn_str e)])
                           (generator st1))
       else (Raise e, st1)).
Proof.
  intros Hcid Hcid' Hcsec Hcsec' Hrtok Hrtok'.
  split; [by apply maybe_upload_returns|].
  intros e st1 Hrun.
  unfold maybe_upload_to_youtube, getenv. rewrite Hcid, Hcsec, Hrtok. cbn.
  rewrite !bool_decide_eq_false_2 by done. cbn.
  unfold try_except. rewrite Hrun. by destruct (is_Exception e).
Qed.

Lemma upload_failure_is_caught_witness :
  ∃ calls,
    @upload_attempt lcg refused "id" "secret" "token" "out/video.mp4" fresh =
      (Raise (Exn (LibraryError "HttpError") "quota exceeded"),
       State calls (generator fresh)) ∧
    @maybe_upload_to_youtube lcg refused "out/video.mp4" fresh =
      (Ret (), State (calls ++
                        [Printed "YouTube upload failed: quota exceeded"])
                     (generator fresh)).
Proof.
  assert (∃ calls,
    @upload_attempt lcg refused "id" "secret" "token" "out/video.mp4" fresh =
      (Raise (Exn (LibraryError "HttpError") "quota exceeded"),
       State calls (generator fresh))) as [calls Hrun].
  { eexists.
    cbv [upload_attempt mbind M_bind external emit raise mret M_ret print lift
         refused failing raises fresh events generator].
    reflexivity. }
  exists calls. split; [exact Hrun|].
  exact (proj2 (@upload_failure_is_caught lcg refused "out/video.mp4" fresh
                  "id" "secret" "token" eq_refl ltac:(done)
                  eq_refl ltac:(done) eq_refl ltac:(done)) _ _ Hrun).
Defined.

(** C3, as the specification has it, fails: with the three secrets set, a
    [KeyboardInterrupt] raised while the insert request runs is not an
    instance of [Exception]; it passes the [except] clause and leaves
    [maybe_upload_to_youtube], and nothing is logged after the call. *)
Lemma keyboard_interrupt_propagates :
  is_Exception (Exn KeyboardInterrupt "") = false ∧
  ∃ calls request,
    @maybe_upload_to_youtube lcg interrupted "out/video.mp4" fresh =
      (Raise (Exn KeyboardInterrupt ""),
       State (calls ++ [Printed "Uploading to YouTube...";
                        Called (videos_insert request);
                        Called (execute request)])
             (generator fresh)).
Proof. split; [reflexivity|]. by eexists [_; _; _; _; _; _], _. Qed.

End Upload.

(* ===================================================================== *)
(** ** More on the speed-line frames *)
(* ===================================================================== *)

Module Frames.
Import Speedlines.
#[local] Opaque W H.

Lemma fmap_const_seqZ {A} (a : A) (n : Z) :
  (λ _, a) <$> seqZ 0 n = replicate (Z.to_nat n) a.
Proof.
  apply list_eq. intros i. rewrite list_lookup_fmap.
  destruct (decide (Z.of_nat i < n)) as [Hi|Hi].
  - rewrite lookup_seqZ_lt by done. by rewrite lookup_replicate_2 by lia.
  - rewrite lookup_seqZ_ge by lia.
    by rewrite (proj1 (lookup_replicate_None _ _ _)) by lia.
Qed.

(** A frame on which nothing is lit is the array of zeros. *)
Lemma frame_of_black : frame_of (λ _ _, false) = np_zeros H W 3.
Proof.
  unfold frame_of, np_zeros. cbn beta iota.
  by rewrite (fmap_const_seqZ (replicate 3 0) W), fmap_const_seqZ.
Qed.

Lemma stripe_params_negative density :
  density < 0 →
  ∃ period thickness, stripe_params density = Ret (period, thickness) ∧
                      period < 0.
Proof.
  intros Hd. unfold stripe_params, py_floordiv.
  destruct (decide (density = 0)); [lia|].
  destruct (decide (3 = 0)); [lia|]. cbn [mbind outcome_bind mret outcome_ret].
  eexists _, _. split; [done|].
  pose proof (Z.div_mod W density ltac:(lia)) as Hdiv.
  pose proof (Z.mod_neg_bound W density Hd) as Hmod.
  rewrite W_val in *. nia.
Qed.

(** Without stride positions the two loops leave the array as it is. *)
Lemma unpainted dx period thickness shift (img : ndarray) (ys : list Z) :
  py_range 0 W period = Ret [] →
  for_in ys (λ img y,
    xs ← py_range 0 W period;
    for_in xs (paint dx period thickness shift y) img) img = Ret img.
Proof.
  intros Hxs. rewrite Hxs.
  induction ys as [|y ys IH]; cbn [for_in mbind outcome_bind]; done.
Qed.

(** X1.  The degenerate densities of [speedlines_clip].  A density of zero
    raises [ZeroDivisionError] before any frame is asked for.  A negative
    density gives a negative period, hence no stride position: whatever the
    angle, [make_frame(t)] does line 30 and nothing else, so it returns the
    black array [np.zeros((H, W, 3))] when [int(speed * t)] is defined and
    raises the exception of line 30 when it is not. *)
Theorem negative_density_black_frames density speed dx t :
  density < 0 →
  stripe_params 0 =
    Raise (Exn ZeroDivisionError "integer division or modulo by zero") ∧
  ∃ period thickness,
    stripe_params density = Ret (period, thickness) ∧
    make_frame speed dx period thickness t =
      (shift_at speed t ≫= λ _, Ret (np_zeros H W 3)).
Proof.
  intros Hd. split; [reflexivity|].
  destruct (stripe_params_negative density Hd) as (p & th & Hpar & Hp).
  exists p, th. split; [done|]. unfold make_frame.
  destruct (shift_at speed t) as [shift|e]; [|done]. cbn [mbind outcome_bind].
  rewrite py_range_upto. cbn [mbind outcome_bind]. apply unpainted.
  rewrite py_range_strides by lia. by rewrite strides_negative.
Qed.

Lemma negative_density_black_frames_witness :
  ∃ period thickness,
    stripe_params (-14) = Ret (period, thickness) ∧
    make_frame 600 cos_minus_25 period thickness (Float (literal (1 # 24)))
      = Ret (np_zeros H W 3).
Proof.
  destruct (negative_density_black_frames (-14) 600 cos_minus_25
              (Float (literal (1 # 24)))) as (_ & p & th & Hpar & Hframe);
    [lia|].
  exists p, th. split; [exact Hpar|]. rewrite Hframe.
  assert (shift_at 600 (Float (literal (1 # 24))) = Ret 25) as ->
    by (by vm_compute).
  reflexivity.
Defined.

(** *** A density above half the width *)

Lemma elem_of_strides period x :
  x ∈ strides period ↔
  ∃ k, x = k * period ∧ 0 ≤ k < (W + period - 1) `div` period.
Proof.
  unfold strides. rewrite list_elem_of_fmap. split.
  - intros (k & -> & Hk). apply elem_of_seqZ in Hk. exists k.
    split; [lia|]. by replace (W + period - 1) with (W - 0 + period - 1) by lia.
  - intros (k & -> & Hk). exists k. split; [lia|]. apply elem_of_seqZ.
    by replace (W - 0 + period - 1) with (W + period - 1) by lia.
Qed.

Lemma stripe_params_dense density :
  360 < density ≤ 720 → stripe_params density = Ret (1, 1).
Proof.
  intros Hd. unfold stripe_params, py_floordiv.
  destruct (decide (density = 0)); [lia|]. cbn [mbind outcome_bind].
  assert (W `div` density = 1) as ->.
  { rewrite W_val. symmetry.
    apply (Z.div_unique_pos 720 density 1 (720 - density)); lia. }
  reflexivity.
Qed.

(** X4.  A density above half the frame width (and at most the width) gives
    a period and a thickness of one pixel: every remainder modulo 1 is 0,
    which is below the thickness, so every pixel of a frame is white,
    whatever the angle; for a time below [2 ^ 900] and a speed below
    [2 ^ 31], where the frame is defined. *)
Theorem dense_frames_white density speed dx t (y c k : nat) :
  360 < density ≤ 720 →
  num_below 900 t → Z.abs speed < 2 ^ 31 → below 1 dx →
  Z.of_nat y < H → Z.of_nat c < W → (k < 3)%nat →
  ∃ period thickness img,
    stripe_params density = Ret (period, thickness) ∧
    make_frame speed dx period thickness t = Ret img ∧
    px img y c k = Some 255.
Proof.
  intros Hd Ht Hspeed Hdx Hy Hc Hk. exists 1, 1.
  destruct (make_frame_returns speed dx 1 1 t)
    as (shift & _ & _ & Hframe); [done..|].
  eexists. split; [by apply stripe_params_dense|]. split; [exact Hframe|].
  apply stripes_px_white; [done..|]. exists (Z.of_nat c).
  split; [|split; [|lia]].
  - apply elem_of_strides. exists (Z.of_nat c). split; [lia|].
    replace (W + 1 - 1) with W by lia. rewrite Z.div_1_r. lia.
  - unfold stripe_index. rewrite Z.mod_1_r. lia.
Qed.

Lemma dense_frames_white_witness :
  ∃ period thickness img,
    stripe_params 400 = Ret (period, thickness) ∧
    make_frame 600 cos_minus_25 period thickness (Float (literal (1 # 24)))
      = Ret img ∧
    px img 7 11 2 = Some 255.
Proof.
  apply (dense_frames_white 400 600 cos_minus_25 (Float (literal (1 # 24)))
           7 11 2).
  - lia.
  - by vm_compute.
  - by vm_compute.
  - by vm_compute.
  - rewrite H_val. lia.
  - rewrite W_val. lia.
  - lia.
Defined.

#[local] Transparent W H.
End Frames.

(* ===================================================================== *)
(** ** More on [shake_pos] *)
(* ===================================================================== *)

Module Shake.
Import Rand.

(** X5.  The intensities [shake_pos] has no use for, at a time below
    [2 ^ 900] (where line 51 computes a seed).  With an intensity of zero
    the position function returns [(0, 0)], whatever the generator draws;
    with a negative intensity [randint(-i, i)] has an empty range and the
    position function raises [ValueError] ([shake_pos] itself returns: the
    failure shows when a position is asked for). *)
Theorem shake_pos_degenerate `{PRNG} (intensity : Z) (t : number) :
  intensity ≤ 0 → num_below 900 t →
  match shake_pos intensity t with
  | Ret p => intensity = 0 ∧ p = (0, 0)
  | Raise e => intensity < 0 ∧ exn_cls e = ValueError
  end.
Proof.
  intros Hi Ht. unfold shake_pos, randint.
  destruct (time_key_defined t Ht) as [key ->]. cbn [mbind outcome_bind].
  destruct (decide (0 < intensity + 1 - - intensity)) as [Hw|Hw].
  - assert (intensity = 0) as -> by lia. change (0 + 1 - - 0) with 1.
    set (g := seed _).
    pose proof (randbelow_range 1 g ltac:(lia)) as Hx.
    destruct (randbelow 1 g) as [x g1]. cbn [fst] in Hx.
    cbn [mbind outcome_bind].
    pose proof (randbelow_range 1 g1 ltac:(lia)) as Hy.
    destruct (randbelow 1 g1) as [y g2]. cbn [fst] in Hy.
    cbn [mbind outcome_bind mret outcome_ret].
    split; [done|]. f_equal; lia.
  - cbn [mbind outcome_bind]. split; [lia|done].
Qed.

Lemma shake_pos_degenerate_witness :
  match @shake_pos lcg (-3) (Float (literal 4.9)) with
  | Ret p => -3 = 0 ∧ p = (0, 0)
  | Raise e => -3 < 0 ∧ exn_cls e = ValueError
  end.
Proof.
  apply (@shake_pos_degenerate lcg (-3) (Float (literal 4.9))).
  - lia.
  - by vm_compute.
Defined.

End Shake.

(* ===================================================================== *)
(** ** The level of the synthesizers *)
(* ===================================================================== *)

Module Levels.
Import Audio.
#[local] Open Scope R_scope.






End Levels.

(* ===================================================================== *)
(** ** Runs of the upload step and of [main] *)
(* ===================================================================== *)

Module Runs.
Import Rand Effects Video Upload.

Section runs.
Context `{PRNG} (w : world).

(** One line of a straight piece of the script: a [print] or a call that
    leaves the script. *)
Definition step (e : event) : M unit :=
  match e with
  | Printed line => print line
  | Called c => external w c
  end.

(** The lines [script] one after the other, then [rest]. *)
Fixpoint run_then {A : Type} (script : list event) (rest : M A) : M A :=
  match script with
  | [] => rest
  | e :: script => step e;; run_then script rest
  end.

(** What a line raises, as the world has it. *)
Definition raised (e : event) : option exn :=
  match e with
  | Called c => raises w c
  | Printed _ => None
  end.

(** The insert request of lines 152 to 175. *)
Definition upload_request (cid csec rtok video_path : string)
    : insert_request :=
  Insert
    (Service "youtube" "v3"
       (Credentials rtok cid csec "https://oauth2.googleapis.com/token"
                    ["https://www.googleapis.com/auth/youtube.upload"]))
    "snippet,status"
    (Body ("AI Anime Fight • " +:+ strftime_today w "%b %d, %Y")
          "Auto-generated anime-style motion graphic. #anime #shorts"
          "24" ["anime"; "fight"; "motion graphics"; "shorts"] "public")
    (MediaFileUpload video_path (-1) false).

(** The lines of the [try] up to the insert request (lines 148 to 175). *)
Definition upload_script (cid csec rtok video_path : string) : list event :=
  let request := upload_request cid csec rtok video_path in
  let yt := insert_service request in
  [ Called (import "google.oauth2.credentials");
    Called (import "googleapiclient.discovery");
    Called (import "googleapiclient.http");
    Called (new_Credentials (service_credentials yt));
    Called (build yt);
    Called (new_MediaFileUpload (insert_media request));
    Printed "Uploading to YouTube...";
    Called (videos_insert request);
    Called (execute request) ].

(** Line 176. *)
Definition report (resp : gmap string string) : M unit :=
  id ← lift (dict_getitem resp "id");
  print ("Uploaded: https://www.youtube.com/watch?v=" +:+ id).

(** The handler of line 178. *)
Definition log_failure (e : exn) : M unit :=
  print ("YouTube upload failed: " +:+ exn_str e).

(** [emits P m]: a run of [m] adds events to those it finds, each of them
    satisfying [P], and leaves the random generator alone. *)
Definition emits {A : Type} (P : event → Prop) (m : M A) : Prop :=
  ∀ st, ∃ o evs,
    m st = (o, State (events st ++ evs) (generator st)) ∧ Forall P evs.


(** *** Straight pieces *)

Lemma upload_attempt_script cid csec rtok path :
  upload_attempt w cid csec rtok path =
  run_then (upload_script cid csec rtok path)
           (report (response w (upload_request cid csec rtok path))).
Proof. reflexivity. Qed.

Lemma step_run (e : event) (st : state) :
  step e st =
  (match raised e with Some x => Raise x | None => Ret () end,
   State (events st ++ [e]) (generator st)).
Proof.
  destruct e as [line|c]; [done|]. cbn [step raised]. unfold external.
  cbv [mbind M_bind emit]. by destruct (raises w c).
Qed.

(** Lines that do not raise are all run, and [rest] after them. *)
Lemma run_then_quiet {A} (script : list event) (rest : M A) (st : state) :
  Forall (λ e, raised e = None) script →
  run_then script rest st = rest (State (events st ++ script) (generator st)).
Proof.
  revert st. induction script as [|e script IH]; intros st Hquiet.
  - cbn [run_then]. rewrite app_nil_r. by destruct st.
  - apply Forall_cons in Hquiet as [He Hquiet]. cbn [run_then].
    cbv [mbind M_bind]. rewrite step_run, He, IH by done.
    cbn [events generator]. by rewrite <- (assoc_L (++)).
Qed.

(** The first line that raises is the last one run. *)
Lemma run_then_raises {A} (before after : list event) (e : event) (x : exn)
    (rest : M A) (st : state) :
  Forall (λ e, raised e = None) before → raised e = Some x →
  run_then (before ++ e :: after) rest st =
  (Raise x, State (events st ++ before ++ [e]) (generator st)).
Proof.
  revert st. induction before as [|e' before IH]; intros st Hquiet He.
  - cbn [run_then app]. cbv [mbind M_bind]. by rewrite step_run, He.
  - apply Forall_cons in Hquiet as [He' Hquiet]. cbn [run_then app].
    cbv [mbind M_bind]. rewrite step_run, He', IH by done.
    cbn [events generator]. by rewrite <- (assoc_L (++)).
Qed.

Lemma report_run (resp : gmap string string) (st : state) :
  report resp st =
  match resp !! "id" with
  | Some id =>
      (Ret (), State (events st ++
                 [Printed ("Uploaded: https://www.youtube.com/watch?v=" +:+ id)])
                 (generator st))
  | None => (Raise (Exn KeyError "'id'"), st)
  end.
Proof.
  unfold report, dict_getitem. cbv [mbind M_bind lift].
  by destruct (resp !! "id").
Qed.

(** With the three secrets set, the upload step is the [try] statement. *)
Lemma maybe_upload_tries cid csec rtok path (st : state) :
  environ w !! "YT_CLIENT_ID" = Some cid → cid ≠ "" →
  environ w !! "YT_CLIENT_SECRET" = Some csec → csec ≠ "" →
  environ w !! "YT_REFRESH_TOKEN" = Some rtok → rtok ≠ "" →
  maybe_upload_to_youtube w path st =
  try_except (upload_attempt w cid csec rtok path) log_failure st.
Proof.
  intros Hcid Hcid' Hcsec Hcsec' Hrtok Hrtok'.
  unfold maybe_upload_to_youtube, getenv. rewrite Hcid, Hcsec, Hrtok. cbn.
  by rewrite !bool_decide_eq_false_2 by done.
Qed.

(** *** Runs that only add events *)

Section emits.
Context (P : event → Prop).

Lemma emits_step (e : event) : P e → emits P (step e).
Proof.
  intros He st. rewrite step_run. eexists _, _. split; [done|].
  by apply Forall_singleton.
Qed.

Lemma emits_bind {A B} (m : M A) (f : A → M B) :
  emits P m → (∀ a, emits P (f a)) → emits P (m ≫= f).
Proof.
  intros Hm Hf st. cbv [mbind M_bind].
  destruct (Hm st) as ([a|x] & evs & -> & Hevs); [|by eexists _, _].
  destruct (Hf a (State (events st ++ evs) (generator st)))
    as (o & evs' & -> & Hevs').
  exists o, (evs ++ evs'). cbn [events generator].
  rewrite <- (assoc_L (++)). split; [done|by apply Forall_app].
Qed.

Lemma emits_run_then {A} (script : list event) (rest : M A) :
  Forall P script → emits P rest → emits P (run_then script rest).
Proof.
  intros Hscript Hrest. induction Hscript as [|e script He _ IH]; [done|].
  cbn [run_then]. apply emits_bind; [by apply emits_step|done].
Qed.

Lemma emits_report (resp : gmap string string) :
  (∀ line, P (Printed line)) → emits P (report resp).
Proof.
  intros Hprint st. rewrite report_run. destruct (resp !! "id").
  - eexists _, _. split; [done|]. by apply Forall_singleton.
  - exists (Raise (Exn KeyError "'id'")), []. rewrite app_nil_r.
    by destruct st.
Qed.



End emits.



(** *** The upload step *)

(** X9.  The upload step stops at the first call that raises.  With the
    three secrets set, when a call of the [try] raises and no call before it
    does, nothing after it is run.  If the exception is an instance of
    [Exception] the step logs it on the next line and returns; otherwise
    the exception leaves the step and nothing is logged. *)
Theorem upload_stops_at_first_failure cid csec rtok path (st : state)
    (before after : list event) (c : call) (e : exn) :
  environ w !! "YT_CLIENT_ID" = Some cid → cid ≠ "" →
  environ w !! "YT_CLIENT_SECRET" = Some csec → csec ≠ "" →
  environ w !! "YT_REFRESH_TOKEN" = Some rtok → rtok ≠ "" →
  upload_script cid csec rtok path = before ++ Called c :: after →
  (∀ c', Called c' ∈ before → raises w c' = None) →
  raises w c = Some e →
  maybe_upload_to_youtube w path st =
    if is_Exception e
    then (Ret (),
          State (events st ++ before ++
                   [Called c;
                    Printed ("YouTube upload failed: " +:+ exn_str e)])
                (generator st))
    else (Raise e, State (events st ++ before ++ [Called c]) (generator st)).
Proof.
  intros Hcid Hcid' Hcsec Hcsec' Hrtok Hrtok' Hscript Hbefore Hc.
  rewrite (maybe_upload_tries cid csec rtok) by done.
  unfold try_except. rewrite upload_attempt_script, Hscript.
  rewrite (run_then_raises before after (Called c) e); [|
    |done].
  - destruct (is_Exception e); [|done]. unfold log_failure, print, emit.
    cbn [events generator]. by rewrite <- !(assoc_L (++)).
  - apply Forall_forall. intros [line|c'] Hin; [done|]. by apply Hbefore.
Qed.

(** X10.  A successful upload.  With the three secrets set, no call of the
    [try] raising and an answer that carries an ["id"], the step makes the
    calls of the script in their order (the three imports, the credentials
    from the three secrets, the client, the media object of the path it was
    given, the insert request and its execution), prints the address of the
    video with the id of the answer last, and returns. *)
Theorem upload_succeeds cid csec rtok path (st : state) (vid : string) :
  environ w !! "YT_CLIENT_ID" = Some cid → cid ≠ "" →
  environ w !! "YT_CLIENT_SECRET" = Some csec → csec ≠ "" →
  environ w !! "YT_REFRESH_TOKEN" = Some rtok → rtok ≠ "" →
  (∀ c, Called c ∈ upload_script cid csec rtok path → raises w c = None) →
  response w (upload_request cid csec rtok path) !! "id" = Some vid →
  maybe_upload_to_youtube w path st =
    (Ret (),
     State (events st ++ upload_script cid csec rtok path ++
              [Printed ("Uploaded: https://www.youtube.com/watch?v=" +:+ vid)])
           (generator st)).
Proof.
  intros Hcid Hcid' Hcsec Hcsec' Hrtok Hrtok' Hquiet Hid.
  rewrite (maybe_upload_tries cid csec rtok) by done.
  unfold try_except. rewrite upload_attempt_script, run_then_quiet.
  - rewrite report_run, Hid. cbn [events generator].
    by rewrite <- (assoc_L (++)).
  - apply Forall_forall. intros [line|c] Hin; [done|]. by apply Hquiet.
Qed.

(** X11.  An answer without an id.  With the three secrets set and no call
    raising, an answer of the insert request that has no ["id"] makes line
    176 raise [KeyError]: the step reports [YouTube upload failed: 'id']
    although the insert request has been executed, and returns. *)
Theorem upload_without_id_reported_failed cid csec rtok path (st : state) :
  environ w !! "YT_CLIENT_ID" = Some cid → cid ≠ "" →
  environ w !! "YT_CLIENT_SECRET" = Some csec → csec ≠ "" →
  environ w !! "YT_REFRESH_TOKEN" = Some rtok → rtok ≠ "" →
  (∀ c, Called c ∈ upload_script cid csec rtok path → raises w c = None) →
  response w (upload_request cid csec rtok path) !! "id" = None →
  maybe_upload_to_youtube w path st =
    (Ret (),
     State (events st ++ upload_script cid csec rtok path ++
              [Printed "YouTube upload failed: 'id'"])
           (generator st)) ∧
  last (upload_script cid csec rtok path) =
    Some (Called (execute (upload_request cid csec rtok path))).
Proof.
  intros Hcid Hcid' Hcsec Hcsec' Hrtok Hrtok' Hquiet Hid. split; [|done].
  rewrite (maybe_upload_tries cid csec rtok) by done.
  unfold try_except. rewrite upload_attempt_script, run_then_quiet.
  - rewrite report_run, Hid. cbn [is_Exception exn_cls].
    unfold log_failure, print, emit. cbn [events generator exn_str].
    by rewrite <- (assoc_L (++)).
  - apply Forall_forall. intros [line|c] Hin; [done|]. by apply Hquiet.
Qed.

(** X12.  Every run of the upload step, whatever the world: it adds events
    to those it finds and leaves the random generator as it was; and its
    first event tells the branch taken, the skip notice when one of the
    three secrets is missing or empty, the import of the credentials module
    otherwise. *)
Theorem upload_step_first_event path (st : state) :
  ∃ o evs,
    maybe_upload_to_youtube w path st =
      (o, State (events st ++ evs) (generator st)) ∧
    head evs =
      Some (if truthy (getenv w "YT_CLIENT_ID") &&
               truthy (getenv w "YT_CLIENT_SECRET") &&
               truthy (getenv w "YT_REFRESH_TOKEN")
            then Called (import "google.oauth2.credentials")
            else Printed skip_notice).
Proof.
  unfold maybe_upload_to_youtube.
  destruct (truthy _ && truthy _ && truthy _); cbn [negb];
    [|by eexists _, _].
  set (cid := default "" _). set (csec := default "" _).
  set (rtok := default "" _).
  rewrite upload_attempt_script. unfold upload_script.
  set (first := Called (import "google.oauth2.credentials")).
  match goal with
  | |- context [run_then (first :: ?l) ?r] =>
      set (script := l); set (rest := r)
  end.
  unfold try_except. cbn [run_then]. cbv [mbind M_bind]. rewrite step_run.
  destruct (raised first) as [x|].
  - destruct (is_Exception x); [|by eexists _, _].
    unfold print, emit. cbn [events generator].
    rewrite <- (assoc_L (++)). by eexists _, _.
  - destruct (emits_run_then (λ _, True) script rest
                ltac:(by apply Forall_forall)
                ltac:(by apply emits_report)
                (State (events st ++ [first]) (generator st)))
      as ([[]|x] & evs & -> & _); cbn [events generator];
      rewrite <- (assoc_L (++)); [by eexists _, _|].
    destruct (is_Exception x); [|by eexists _, _].
    unfold log_failure, print, emit. cbn [events generator].
    rewrite <- (assoc_L (++)). by eexists _, _.
Qed.

(** *** [main] *)

(** X13.  No upload before the video is saved.  In every run of [main], if
    an upload call was made, or if [main] returned, then the events of the
    run begin with the four events of a complete [build_video]: the file
    was written and its path printed before the upload step began.  And no
    run of [main] gets that far: [build_video] raises, so no upload call is
    made and [main] does not return. *)
Theorem no_upload_before_save (st : state) :
  ∃ o evs g',
    main w st = (o, State (events st ++ evs) g') ∧
    (upload_calls evs ≠ [] ∨ o = Ret () →
     ∃ comp rest, evs = build_events comp ++ rest) ∧
    upload_calls evs = [] ∧ o ≠ Ret ().
Proof.
  destruct (main_raises w st) as (e & g' & ->).
  eexists _, _, _. split; [done|]. split; [|done]. by intros [Hcalls|Hret].
Qed.


End runs.

(** *** Worlds for the upload step *)

(** The three secrets are set and the client library is not installed. *)
Definition offline : world :=
  World secrets (strftime_today (calm secrets)) (λ _, Speedlines.cos_20)
        (λ c, match c with
              | import _ => Some (Exn ImportError "No module named 'google'")
              | _ => None
              end)
        (λ _, ∅).

(** The three secrets are set, no call raises, and the answer of the insert
    request is empty. *)
Definition speechless : world :=
  World secrets (strftime_today (calm secrets)) (λ _, Speedlines.cos_20)
        (λ _, None) (λ _, ∅).

Lemma upload_stops_at_first_failure_witness :
  @maybe_upload_to_youtube lcg offline "out/video.mp4" fresh =
    (Ret (),
     State [Called (import "google.oauth2.credentials");
            Printed "YouTube upload failed: No module named 'google'"]
           (generator fresh)).
Proof.
  eapply (@upload_stops_at_first_failure lcg offline "id" "secret" "token"
            "out/video.mp4" fresh []
            (tail (@upload_script offline "id" "secret" "token"
                     "out/video.mp4"))
            (import "google.oauth2.credentials")
            (Exn ImportError "No module named 'google'")).
  - reflexivity.
  - done.
  - reflexivity.
  - done.
  - reflexivity.
  - done.
  - reflexivity.
  - intros c' Hin. by apply elem_of_nil in Hin.
  - reflexivity.
Defined.

Lemma upload_succeeds_witness :
  @maybe_upload_to_youtube lcg (calm secrets) "out/video.mp4" fresh =
    (Ret (),
     State (@upload_script (calm secrets) "id" "secret" "token"
              "out/video.mp4" ++
            [Printed "Uploaded: https://www.youtube.com/watch?v=dQw4w9WgXcQ"])
           (generator fresh)).
Proof.
  eapply (@upload_succeeds lcg (calm secrets) "id" "secret" "token"
            "out/video.mp4" fresh "dQw4w9WgXcQ").
  - reflexivity.
  - done.
  - reflexivity.
  - done.
  - reflexivity.
  - done.
  - done.
  - reflexivity.
Defined.

Lemma upload_without_id_reported_failed_witness :
  @maybe_upload_to_youtube lcg speechless "out/video.mp4" fresh =
    (Ret (),
     State (@upload_script speechless "id" "secret" "token" "out/video.mp4" ++
            [Printed "YouTube upload failed: 'id'"])
           (generator fresh)).
Proof.
  eapply (proj1 (@upload_without_id_reported_failed lcg speechless "id"
                   "secret" "token" "out/video.mp4" fresh _ _ _ _ _ _ _ _)).
  Unshelve.
  - reflexivity.
  - done.
  - reflexivity.
  - done.
  - reflexivity.
  - done.
  - done.
  - reflexivity.
Defined.

End Runs.
